(** * Action handlers of ckanext-dalrrd-emc-dcpr (logic/action/emc.py)

    A shallow embedding of the four action handlers and their two helpers.
    Every handler is a short orchestration of calls into the host platform
    (CKAN's toolkit, SQLAlchemy, pkg_resources, the process environment), so
    a handler is embedded as a program over host calls, and a program is run
    against an arbitrary host: each host call may return or raise and
    may change the host's state.  The run records the calls in order. *)

From stdpp Require Import gmap strings list fin_maps.

Open Scope string_scope.
Open Scope list_scope.

(** ** Python values *)

(** A validator is a function object: it has a [__name__], and two function
    objects are equal ([==]) exactly when they are the same object. *)
Record Validator := mkValidator { v_name : string; v_ident : positive }.

Global Instance Validator_eq_dec : EqDecision Validator.
Proof. solve_decision. Defined.

(** A validation schema: field name to the list of its validators. *)
Abbreviation Schema := (gmap string (list Validator)).

(** A SQLAlchemy table object: its name, the names of its columns ([.c])
    and its foreign keys (column, referred table, referred column). *)
Record Table := mkTable {
  t_name : string;
  t_columns : list string;
  t_foreign_keys : list (string * (string * string))
}.

(** The object found under [context["model"]]. *)
Record Model := mkModel {
  package_table : Table;
  package_extra_table : Table
}.

#[warnings="-register-all"]
Inductive pyval :=
| PNone
| PBool (b : bool)
| PInt (z : Z)
| PStr (s : string)
| PList (l : list pyval)
| PDict (d : gmap string pyval)
| PSchema (s : Schema)
| PModel (m : Model).

Abbreviation pydict := (gmap string pyval).

(** ** Exceptions *)

Inductive exn :=
| NotAuthorized (msg : string)
| ValidationError (error_dict : pydict)
| NotFound (msg : string)
| KeyError (key : string)
| AttributeError (msg : string)
| IndexError (msg : string)
| ValueError (msg : string)
| TypeError (msg : string)
| OtherError (cls msg : string).

(** [except toolkit.ValidationError] *)
Definition is_ValidationError (e : exn) : bool :=
  match e with ValidationError _ => true | _ => false end.

Inductive Result (A : Type) : Type :=
| Ok (a : A)
| Raised (e : exn).
Arguments Ok {A} a.
Arguments Raised {A} e.

Global Instance Result_ret : MRet Result := @Ok.
Global Instance Result_bind : MBind Result := λ A B f r,
  match r with Ok a => f a | Raised e => Raised e end.

(** ** Query expressions

    [list_featured_datasets] builds a SQLAlchemy selectable and hands it to
    the database with [execute()].  The selectable is kept as the expression
    the code builds. *)

(** [table.c.<name>] *)
Record Column := mkColumn { c_table : Table; c_name : string }.

#[warnings="-register-all"]
Inductive Clause :=
| CEq (col : Column) (v : pyval)          (* col == v *)
| CAnd (cs : list Clause).                (* sqlalchemy.and_(...) *)

Inductive FromClause :=
| FTable (t : Table)
| FJoin (l r : Table) (on_left on_right : string).

Record Query := mkQuery {
  q_columns : list Column;
  q_from : option FromClause;
  q_where : list Clause;
  q_limit : pyval;
  q_offset : pyval
}.

(** A result row: column name to value. *)
Abbreviation Row := (gmap string pyval) (only parsing).

(** ** Host objects *)

(** [toolkit.g.userobj] when a user is logged in. *)
Record User := mkUser { user_id : string; user_name : string }.

(** An entry of the working set returned by [pkg_resources.require]. *)
Record Distribution := mkDistribution { project_name : string; version : string }.

(** Functions of the [jobs] module that can be handed to the queue. *)
Inductive JobFn := notify_org_admins_of_dataset_management_request.

(** ** Host calls

    A call into the host may return or raise, and may change the host's
    state.  [CheckAccess] is [toolkit.check_access], which is handed the
    caller's context dictionary itself and may add to it the entries it
    finds missing; the entries the caller passed stay as they are, and they
    are what a handler reads from the context after the check. *)
Inductive hostE : Type → Type :=
| CheckAccess (name : string) (context : pydict) (data_dict : option pydict)
    : hostE unit
| PkgRequire (requirement : string) : hostE (list Distribution)
| DefaultCreateActivitySchema : hostE Schema
| GetValidator (name : string) : hostE Validator
| CallAction (name : string) (context : option pydict) (data_dict : pydict)
    : hostE pyval
| GUserobj : hostE (option User)
| EnqueueJob (fn : JobFn) (args : list pyval) : hostE unit
| Execute (q : Query) : hostE (list Row).

(** A read of the host's state neither fails nor changes anything:
    [os.environ.get(name)], and whether an action is registered under a
    name, which is what [toolkit.get_action] looks up. *)
Inductive readE : Type → Type :=
| Environ (name : string) : readE (option string)
| Registered (name : string) : readE bool.

(** ** Programs over host calls *)

Inductive Prog (A : Type) : Type :=
| Ret (a : A)
| Throw (e : exn)
| Vis {R : Type} (c : hostE R) (k : Result R → Prog A)
| Read {R : Type} (q : readE R) (k : R → Prog A).
Arguments Ret {A} a.
Arguments Throw {A} e.
Arguments Vis {A R} c k.
Arguments Read {A R} q k.

Fixpoint bind {A B} (p : Prog A) (f : A → Prog B) : Prog B :=
  match p with
  | Ret a => f a
  | Throw e => Throw e
  | Vis c k => Vis c (λ r, bind (k r) f)
  | Read q k => Read q (λ v, bind (k v) f)
  end.

Global Instance Prog_ret : MRet Prog := @Ret.
Global Instance Prog_bind : MBind Prog := λ A B f p, bind p f.

(** A host call whose exception, if any, propagates. *)
Definition call {R} (c : hostE R) : Prog R :=
  Vis c (λ r, match r with Ok v => Ret v | Raised e => Throw e end).

(** [os.getenv(name)] *)
Definition os_getenv (name : string) : Prog (option string) :=
  Read (Environ name) Ret.

(** [toolkit.get_action(name)]: [KeyError] when no action is registered
    under the name; the callable it returns is the one registered under
    that name, and [CallAction] refers to it by the name. *)
Definition get_action (name : string) : Prog unit :=
  Read (Registered name)
       (λ found : bool, if found then Ret () else Throw (KeyError name)).

(** A pure computation that may raise. *)
Definition lift {A} (r : Result A) : Prog A :=
  match r with Ok v => Ret v | Raised e => Throw e end.

(** [try: body except <handles>: handler] *)
Fixpoint try_except {A} (body : Prog A) (handles : exn → bool)
    (handler : Prog A) : Prog A :=
  match body with
  | Ret a => Ret a
  | Throw e => if handles e then handler else Throw e
  | Vis c k => Vis c (λ r, try_except (k r) handles handler)
  | Read q k => Read q (λ v, try_except (k v) handles handler)
  end.

(** ** Running a program against a host *)

Inductive Entry :=
| Called {R : Type} (c : hostE R) (r : Result R)
| Observed {R : Type} (q : readE R) (v : R).

Record Host (World : Type) := mkHost {
  handle : ∀ R, hostE R → World → Result R * World;
  observe : ∀ R, readE R → World → R
}.
Arguments handle {World} h {R} c w.
Arguments observe {World} h {R} q w.

Record Outcome (World A : Type) := mkOutcome {
  result : Result A;
  world : World;
  trace : list Entry
}.
Arguments mkOutcome {World A}.
Arguments result {World A}.
Arguments world {World A}.
Arguments trace {World A}.

Definition logged {World A} (es : list Entry) (o : Outcome World A)
    : Outcome World A :=
  mkOutcome (result o) (world o) (es ++ trace o).

Fixpoint run {World A} (h : Host World) (p : Prog A) (w : World)
    : Outcome World A :=
  match p with
  | Ret a => mkOutcome (Ok a) w []
  | Throw e => mkOutcome (Raised e) w []
  | Vis c k =>
      let rw := handle h c w in
      logged [Called c rw.1] (run h (k rw.1) rw.2)
  | Read q k =>
      let v := observe h q w in
      logged [Observed q v] (run h (k v) w)
  end.

(** ** Python primitives used by the handlers *)

(** [d[key]] on a dictionary *)
Definition getitem {V} (d : gmap string V) (key : string) : Result V :=
  match d !! key with
  | Some v => Ok v
  | None => Raised (KeyError key)
  end.

(** [d.get(key, default)] *)
Definition dict_get (d : pydict) (key : string) (default : pyval) : pyval :=
  match d !! key with
  | Some v => v
  | None => default
  end.

(** [v[key]] on an arbitrary value *)
Definition subscript (v : pyval) (key : string) : Result pyval :=
  match v with
  | PDict d => getitem d key
  | _ => Raised (TypeError "object is not subscriptable")
  end.

(** [l[0]] *)
Definition first_item {V} (l : list V) : Result V :=
  match l with
  | x :: _ => Ok x
  | [] => Raised (IndexError "list index out of range")
  end.

(** [l.remove(x)]: drops the first item equal to [x], [ValueError] when
    there is none. *)
Fixpoint list_remove (x : Validator) (l : list Validator)
    : Result (list Validator) :=
  match l with
  | [] => Raised (ValueError "list.remove(x): x not in list")
  | v :: l' =>
      if decide (v = x) then Ok l'
      else l'' ← list_remove x l'; Ok (v :: l'')
  end.

(** [os.getenv] gives a string or [None]. *)
Definition opt_str (o : option string) : pyval :=
  match o with
  | Some s => PStr s
  | None => PNone
  end.

(** ** show_version (lines 16-25) *)

Definition show_version (context data_dict : option pydict) : Prog pydict :=
  dists ← call (PkgRequire "ckanext-dalrrd-emc-dcpr");
  dist ← lift (first_item dists);
  git_sha ← os_getenv "GIT_COMMIT";
  mret ({[ "version" := PStr (version dist);
           "git_sha" := opt_str git_sha ]} : pydict).

(** ** SQLAlchemy expression builders *)

(** [table.c.<name>]: [AttributeError] when the table has no such column. *)
Definition column (t : Table) (name : string) : Result Column :=
  if decide (name ∈ t_columns t) then Ok (mkColumn t name)
  else Raised (AttributeError name).

(** Foreign keys of [src] that refer to [tgt], as (column of [src], column
    of [tgt]). *)
Definition referring (src tgt : Table) : list (string * string) :=
  omap (λ fk : string * (string * string),
          if decide (fk.2.1 = t_name tgt) then Some (fk.1, fk.2.2) else None)
       (t_foreign_keys src).

(** [a.join(b)] with no explicit on-clause: the clause is derived from the
    one foreign key that links the two tables, in either direction. *)
Definition join (a b : Table) : Result FromClause :=
  let from_b : list (string * string) :=
    (λ p : string * string, (p.2, p.1)) <$> referring b a in
  let from_a : list (string * string) := if decide (t_name a = t_name b) then [] else referring a b in
  match from_b ++ from_a with
  | [] => Raised (OtherError "NoForeignKeysError" (t_name a))
  | [(ca, cb)] => Ok (FJoin a b ca cb)
  | _ => Raised (OtherError "AmbiguousForeignKeysError" (t_name a))
  end.

(** [sqlalchemy.select(columns)] *)
Definition select (columns : list Column) : Query :=
  mkQuery columns None [] PNone PNone.

Definition select_from (q : Query) (f : FromClause) : Query :=
  mkQuery (q_columns q) (Some f) (q_where q) (q_limit q) (q_offset q).

Definition where_ (q : Query) (c : Clause) : Query :=
  mkQuery (q_columns q) (q_from q) (q_where q ++ [c]) (q_limit q) (q_offset q).

(** [q.limit(n)] and [q.offset(n)] with an int or [None] for [n].  A bound
    of another type, which SQLAlchemy converts with [int()] as it builds
    the query, is kept as it is given: the conversion is not modelled. *)
Definition limit (q : Query) (n : pyval) : Query :=
  mkQuery (q_columns q) (q_from q) (q_where q) n (q_offset q).

Definition offset (q : Query) (n : pyval) : Query :=
  mkQuery (q_columns q) (q_from q) (q_where q) (q_limit q) n.

(** Attribute access on the value of [context["model"]]. *)
Definition model_of (v : pyval) : Result Model :=
  match v with
  | PModel m => Ok m
  | _ => Raised (AttributeError "package_table")
  end.

(** ** list_featured_datasets (lines 28-52) *)

Definition list_featured_datasets (context : pydict)
    (data_dict : option pydict) : Prog (list Row) :=
  _ ← call (CheckAccess "emc_authorize_list_featured_datasets"
              context data_dict);
  let data_ : pydict :=
    match data_dict with Some d => d | None => ∅ end in
  let include_private := dict_get data_ "include_private" (PBool false) in
  let limit_ := dict_get data_ "limit" (PInt 10) in
  let offset_ := dict_get data_ "offset" (PInt 0) in
  model_ ← lift (getitem context "model");
  model ← lift (model_of model_);
  name ← lift (column (package_table model) "name");
  joined ← lift (join (package_table model) (package_extra_table model));
  featured ← lift (column (package_extra_table model) "featured");
  state ← lift (column (package_table model) "state");
  private ← lift (column (package_table model) "private");
  let query :=
    offset
      (limit
         (where_
            (select_from (select [name]) joined)
            (CAnd [CEq featured (PStr "true");
                   CEq state (PStr "active");
                   CEq private include_private]))
         limit_)
      offset_ in
  rows ← call (Execute query);
  mret rows.

(** ** The activity types of the constants module

    [DatasetManagementActivityType] is an enumeration declared in
    [constants.py]; the handlers use two of its members and read their
    [.value].  The values are a parameter of the development. *)

Inductive DatasetManagementActivityType :=
| REQUEST_MAINTENANCE
| REQUEST_PUBLICATION.

(** ** The schema patch of _create_dataset_management_activity *)

(** The loop of lines 113-116 and 120-123: the first validator of the list
    whose [__name__] is [name], [None] when the loop ends without a break. *)
Fixpoint find_validator (name : string) (validators : list Validator)
    : option Validator :=
  match validators with
  | [] => None
  | validator :: rest =>
      if decide (v_name validator = name) then Some validator
      else find_validator name rest
  end.

(** Lines 112-118 (and 119-125): look the validator up by name and, when
    one was found, remove it from the list held under [field].  A function
    object is truthy, so [if to_remove:] tests that one was found. *)
Definition remove_validator (activity_schema : Schema)
    (field name : string) : Result Schema :=
  validators ← getitem activity_schema field;
  match find_validator name validators with
  | Some to_remove =>
      validators ← getitem activity_schema field;
      validators ← list_remove to_remove validators;
      Ok (<[field := validators]> activity_schema)
  | None => Ok activity_schema
  end.

Section Handlers.

Variable value : DatasetManagementActivityType → pyval.

(** ** _create_dataset_management_activity (lines 102-141) *)

Definition _create_dataset_management_activity (dataset_id : pyval)
    (activity_type : DatasetManagementActivityType) : Prog pyval :=
  activity_schema ← call DefaultCreateActivitySchema;
  activity_schema ← lift (remove_validator activity_schema
                            "activity_type" "activity_type_exists");
  activity_schema ← lift (remove_validator activity_schema
                            "object_id" "object_id_validator");
  object_id ← lift (getitem activity_schema "object_id");
  package_id_exists ← call (GetValidator "package_id_exists");
  let activity_schema : Schema :=
    <["object_id" := object_id ++ [package_id_exists]]> activity_schema in
  _ ← get_action "package_show";
  dataset ← call (CallAction "package_show" None {[ "id" := dataset_id ]});
  _ ← get_action "activity_create";
  userobj ← call GUserobj;
  user_id ← lift (match userobj with
                  | Some u => Ok (PStr (user_id u))
                  | None => Raised (AttributeError
                      "'NoneType' object has no attribute 'id'")
                  end);
  call (CallAction "activity_create"
          (Some {[ "ignore_auth" := PBool true;
                   "schema" := PSchema activity_schema ]})
          {[ "user_id" := user_id;
             "object_id" := dataset_id;
             "activity_type" := value activity_type;
             "data" := PDict {[ "package" := dataset ]} ]}).

(** ** _ensure_user_is_notifiable (lines 90-99) *)

Definition _ensure_user_is_notifiable (user_id dataset_id : pyval)
    : Prog unit :=
  _ ← get_action "emc_user_patch";
  _ ← call (CallAction "emc_user_patch" None
              {[ "id" := user_id;
                 "activity_streams_email_notifications" := PBool true ]});
  try_except
    (_ ← get_action "follow_dataset";
     _ ← call (CallAction "follow_dataset" None {[ "id" := dataset_id ]});
     mret ())
    is_ValidationError
    (mret ()).  (* pass *)

(** ** request_dataset_maintenance (lines 55-75) *)

Definition request_dataset_maintenance (context data_dict : pydict)
    : Prog unit :=
  _ ← call (CheckAccess "emc_request_dataset_maintenance"
              context (Some data_dict));
  pkg_id ← lift (getitem data_dict "pkg_id");
  activity ← _create_dataset_management_activity pkg_id REQUEST_MAINTENANCE;
  user ← lift (getitem context "user");
  pkg_id ← lift (getitem data_dict "pkg_id");
  _ ← _ensure_user_is_notifiable user pkg_id;
  activity_id ← lift (subscript activity "id");
  _ ← call (EnqueueJob notify_org_admins_of_dataset_management_request
              [activity_id]);
  mret ().

(** ** request_dataset_publication (lines 78-87) *)

Definition request_dataset_publication (context data_dict : pydict)
    : Prog unit :=
  _ ← call (CheckAccess "emc_request_dataset_publication"
              context (Some data_dict));
  pkg_id ← lift (getitem data_dict "pkg_id");
  activity ← _create_dataset_management_activity pkg_id REQUEST_PUBLICATION;
  user ← lift (getitem context "user");
  pkg_id ← lift (getitem data_dict "pkg_id");
  _ ← _ensure_user_is_notifiable user pkg_id;
  activity_id ← lift (subscript activity "id");
  _ ← call (EnqueueJob notify_org_admins_of_dataset_management_request
              [activity_id]);
  mret ().

End Handlers.

(** ** What a run did: observations on the recorded calls *)

(** The calls of the action registered under [name]: the context and the
    data dictionary it was given, and what it returned or raised. *)
Definition action_call (name : string) (e : Entry)
    : option (option pydict * pydict * Result pyval) :=
  match e with
  | Called c r =>
      match c in hostE R
            return Result R → option (option pydict * pydict * Result pyval)
      with
      | CallAction n ctx dd =>
          λ r, if decide (n = name) then Some (ctx, dd, r) else None
      | _ => λ _, None
      end r
  | Observed _ _ => None
  end.

Definition action_calls (name : string) (tr : list Entry) :=
  omap (action_call name) tr.

(** The jobs handed to the queue. *)
Definition enqueued_job (e : Entry) : option (JobFn * list pyval) :=
  match e with
  | Called c _ =>
      match c with
      | EnqueueJob fn args => Some (fn, args)
      | _ => None
      end
  | Observed _ _ => None
  end.

Definition enqueued_jobs (tr : list Entry) := omap enqueued_job tr.

(** The authorization checks made. *)
Definition access_check (e : Entry) : option string :=
  match e with
  | Called c _ =>
      match c with
      | CheckAccess name _ _ => Some name
      | _ => None
      end
  | Observed _ _ => None
  end.

Definition access_checks (tr : list Entry) := omap access_check tr.

(** What [toolkit.g.userobj] gave each time it was read. *)
Definition userobj_read (e : Entry) : option (Result (option User)) :=
  match e with
  | Called c r =>
      match c in hostE R return Result R → option (Result (option User)) with
      | GUserobj => λ r, Some r
      | _ => λ _, None
      end r
  | Observed _ _ => None
  end.

Definition userobj_reads (tr : list Entry) := omap userobj_read tr.

(** The four steps of a maintenance or publication request. *)
Inductive Step :=
| CreateActivity
| PatchUser
| FollowDataset
| EnqueueNotification.

Global Instance Step_eq_dec : EqDecision Step.
Proof. solve_decision. Defined.

Definition step_of (e : Entry) : option Step :=
  match e with
  | Called c _ =>
      match c with
      | CallAction n _ _ =>
          if decide (n = "activity_create") then Some CreateActivity
          else if decide (n = "emc_user_patch") then Some PatchUser
          else if decide (n = "follow_dataset") then Some FollowDataset
          else None
      | EnqueueJob _ _ => Some EnqueueNotification
      | _ => None
      end
  | Observed _ _ => None
  end.

Definition steps (tr : list Entry) : list Step := omap step_of tr.

(** The host calls of a run that raised: the step each was, if it was one
    of the four, and the exception. *)
Definition raised_by_call (e : Entry) : option (option Step * exn) :=
  match e with
  | Called c (Raised x) => Some (step_of e, x)
  | _ => None
  end.

Definition raised_by_calls (tr : list Entry) := omap raised_by_call tr.

(** A run that ended at a refused authorization check: the check is its
    only host call and none of the four steps was taken. *)
Definition refused_at {World A} (c : hostE unit) (msg : string) (w' : World)
    (o : Outcome World A) : Prop :=
  result o = Raised (NotAuthorized msg) ∧
  world o = w' ∧
  trace o = [Called c (Raised (NotAuthorized msg))] ∧
  steps (trace o) = [].

(** ** The database of the small host

    The platform's database is no part of the handlers.  The small host
    below answers a query from rows held in memory, so that the lister can
    be run on concrete inputs: a database holds the rows of each table
    under the table's name, and the rows of a select come in the order of
    the nested loop over the tables of its from-clause. *)

Abbreviation Database := (gmap string (list Row)).

Definition table_rows (db : Database) (t : Table) : list Row :=
  default [] (db !! t_name t).

(** A row of the from-clause: the row of each table in it. *)
Abbreviation Tuple := (list (string * Row)).

Fixpoint tuple_row (tup : Tuple) (table : string) : option Row :=
  match tup with
  | [] => None
  | (t, r) :: rest => if decide (t = table) then Some r else tuple_row rest table
  end.

(** The value of a column in a row; NULL is [PNone]. *)
Definition cell (tup : Tuple) (c : Column) : pyval :=
  match tuple_row tup (t_name (c_table c)) with
  | Some r => default PNone (r !! c_name c)
  | None => PNone
  end.

(** [a = b] on two values that are not NULL. *)
Definition scalar_eqb (a b : pyval) : bool :=
  match a, b with
  | PBool x, PBool y => bool_decide (x = y)
  | PInt x, PInt y => bool_decide (x = y)
  | PStr x, PStr y => bool_decide (x = y)
  | _, _ => false
  end.

(** [col == literal]: rendered as [col IS NULL] for [None], as [col = literal]
    otherwise, which NULL never satisfies. *)
Definition holds_eq (v literal : pyval) : bool :=
  match literal with
  | PNone => match v with PNone => true | _ => false end
  | _ => scalar_eqb v literal
  end.

Fixpoint eval_clause (tup : Tuple) (c : Clause) : bool :=
  match c with
  | CEq col v => holds_eq (cell tup col) v
  | CAnd cs => forallb (eval_clause tup) cs
  end.

Definition eval_from (db : Database) (f : FromClause) : list Tuple :=
  match f with
  | FTable t => (λ r, [(t_name t, r)]) <$> table_rows db t
  | FJoin l r on_left on_right =>
      a ← table_rows db l;
      b ← table_rows db r;
      if scalar_eqb (default PNone (a !! on_left))
                    (default PNone (b !! on_right))
      then [[(t_name l, a); (t_name r, b)]] else []
  end.

Definition project (columns : list Column) (tup : Tuple) : Row :=
  list_to_map ((λ c, (c_name c, cell tup c)) <$> columns).

(** OFFSET, then LIMIT; [None] stands for an absent clause and a negative or
    non-integer bound is an error of the database. *)
Definition apply_offset (n : pyval) (rows : list Row) : option (list Row) :=
  match n with
  | PNone => Some rows
  | PInt z => if decide (0 ≤ z)%Z then Some (drop (Z.to_nat z) rows) else None
  | _ => None
  end.

Definition apply_limit (n : pyval) (rows : list Row) : option (list Row) :=
  match n with
  | PNone => Some rows
  | PInt z => if decide (0 ≤ z)%Z then Some (take (Z.to_nat z) rows) else None
  | _ => None
  end.

Definition eval_query (db : Database) (q : Query) : option (list Row) :=
  f ← q_from q;
  let selected :=
    filter (λ tup, forallb (eval_clause tup) (q_where q) = true)
           (eval_from db f) in
  rows ← apply_offset (q_offset q) (project (q_columns q) <$> selected);
  apply_limit (q_limit q) rows.

(** ** Definitions that follow the specification's words *)

(** The names the lister is to return, before pagination.  The extras of
    a dataset are key and value pairs: a dataset is featured when one of
    its extras has the key "featured" and the string "true" as its value.
    [packages] are the rows of the datasets, [extras] the rows of their
    extras. *)
Definition has_str (r : Row) (col s : string) : bool :=
  match r !! col with
  | Some (PStr x) => bool_decide (x = s)
  | _ => false
  end.

Definition has_bool (r : Row) (col : string) (b : bool) : bool :=
  match r !! col with
  | Some (PBool x) => bool_decide (x = b)
  | _ => false
  end.

Definition has_extra (extras : list Row) (dataset : Row)
    (key value : string) : bool :=
  existsb (λ extra : Row,
             scalar_eqb (default PNone (extra !! "package_id"))
                        (default PNone (dataset !! "id"))
             && has_str extra "key" key
             && has_str extra "value" value)
          extras.

Definition featured_datasets (packages extras : list Row)
    (include_private : bool) : list Row :=
  dataset ← packages;
  if has_extra extras dataset "featured" "true"
     && has_str dataset "state" "active"
     && has_bool dataset "private" include_private
  then [{[ "name" := default PNone (dataset !! "name") ]}] else [].

(** A validator list with its first validator called [name] taken out. *)
Fixpoint without (name : string) (validators : list Validator)
    : list Validator :=
  match validators with
  | [] => []
  | v :: rest =>
      if decide (v_name v = name) then rest else v :: without name rest
  end.

(** The one shape of the two request handlers: authorize, create the
    activity, make the user notifiable, enqueue the notification. *)
Definition request_dataset_management
    (value : DatasetManagementActivityType → pyval)
    (check : string) (activity_type : DatasetManagementActivityType)
    (context data_dict : pydict) : Prog unit :=
  _ ← call (CheckAccess check context (Some data_dict));
  pkg_id ← lift (getitem data_dict "pkg_id");
  activity ← _create_dataset_management_activity value pkg_id activity_type;
  user ← lift (getitem context "user");
  pkg_id ← lift (getitem data_dict "pkg_id");
  _ ← _ensure_user_is_notifiable user pkg_id;
  activity_id ← lift (subscript activity "id");
  _ ← call (EnqueueJob notify_org_admins_of_dataset_management_request
              [activity_id]);
  mret ().

(** The two request operations, the authorization check and the activity
    type of each. *)
Inductive Operation := Maintenance | Publication.

Definition operation_handler (value : DatasetManagementActivityType → pyval)
    (op : Operation) : pydict → pydict → Prog unit :=
  match op with
  | Maintenance => request_dataset_maintenance value
  | Publication => request_dataset_publication value
  end.

Definition operation_check (op : Operation) : string :=
  match op with
  | Maintenance => "emc_request_dataset_maintenance"
  | Publication => "emc_request_dataset_publication"
  end.

Definition operation_type (op : Operation) : DatasetManagementActivityType :=
  match op with
  | Maintenance => REQUEST_MAINTENANCE
  | Publication => REQUEST_PUBLICATION
  end.

(** The schema the patcher is to produce from the host's [schema], whose
    "activity_type" and "object_id" lists are [activity_type] and
    [object_id]. *)
Definition patched_schema (schema : Schema)
    (activity_type object_id : list Validator) (package_id_exists : Validator)
    : Schema :=
  <["object_id" := without "object_id_validator" object_id
                     ++ [package_id_exists]]>
    (<["activity_type" := without "activity_type_exists" activity_type]>
       schema).

(** The arguments the handlers give to the host's actions. *)
Definition activity_context (schema : Schema) : pydict :=
  {[ "ignore_auth" := PBool true; "schema" := PSchema schema ]}.

Definition activity_data (user_id dataset_id activity_type dataset : pyval)
    : pydict :=
  {[ "user_id" := user_id;
     "object_id" := dataset_id;
     "activity_type" := activity_type;
     "data" := PDict {[ "package" := dataset ]} ]}.

Definition notification_data (user : pyval) : pydict :=
  {[ "id" := user; "activity_streams_email_notifications" := PBool true ]}.

(** Two host calls that are the same but for the name of the authorization
    check ([check1], [check2]) and the value recorded under "activity_type"
    in an activity ([type1], [type2]). *)
Inductive same_call (check1 check2 : string) (type1 type2 : pyval)
    : ∀ R, hostE R → hostE R → Prop :=
| same_call_refl R (c : hostE R) : same_call check1 check2 type1 type2 R c c
| same_call_check context data_dict :
    same_call check1 check2 type1 type2 unit
      (CheckAccess check1 context data_dict)
      (CheckAccess check2 context data_dict)
| same_call_activity context (data1 data2 : pydict) :
    data1 !! "activity_type" = Some type1 →
    data2 !! "activity_type" = Some type2 →
    delete "activity_type" data1 = delete "activity_type" data2 →
    same_call check1 check2 type1 type2 pyval
      (CallAction "activity_create" context data1)
      (CallAction "activity_create" context data2).

Inductive same_shape (check1 check2 : string) (type1 type2 : pyval)
    {A : Type} : Prog A → Prog A → Prop :=
| same_shape_ret a : same_shape check1 check2 type1 type2 (Ret a) (Ret a)
| same_shape_throw e :
    same_shape check1 check2 type1 type2 (Throw e) (Throw e)
| same_shape_vis R (c1 c2 : hostE R) k1 k2 :
    same_call check1 check2 type1 type2 R c1 c2 →
    (∀ r, same_shape check1 check2 type1 type2 (k1 r) (k2 r)) →
    same_shape check1 check2 type1 type2 (Vis c1 k1) (Vis c2 k2)
| same_shape_read R (q : readE R) k1 k2 :
    (∀ v, same_shape check1 check2 type1 type2 (k1 v) (k2 v)) →
    same_shape check1 check2 type1 type2 (Read q k1) (Read q k2).

(** The same for the entries of two runs. *)
Inductive same_entry (check1 check2 : string) (type1 type2 : pyval)
    : Entry → Entry → Prop :=
| same_entry_called R (c1 c2 : hostE R) r :
    same_call check1 check2 type1 type2 R c1 c2 →
    same_entry check1 check2 type1 type2 (Called c1 r) (Called c2 r)
| same_entry_observed R (q : readE R) v :
    same_entry check1 check2 type1 type2 (Observed q v) (Observed q v).

(** ** A small host to run the handlers against

    An in-memory stand-in for the platform: datasets, activities, followers,
    a job queue, a database and the caller's permissions.  It is used to run
    the handlers on concrete inputs; the theorems below hold for every host. *)

Module Demo.

Record Ckan := mkCkan {
  authorized : list string;            (* checks the caller passes *)
  userobj : option User;               (* toolkit.g.userobj *)
  users : list string;                 (* names of the registered users *)
  env : gmap string string;            (* os.environ *)
  installed : list Distribution;
  datasets : gmap string pydict;       (* id to dataset representation *)
  activities : list pydict;
  notified : list pyval;               (* users with email notifications on *)
  followers : list (string * string);  (* user name, dataset id *)
  queue : list (JobFn * list pyval);
  database : Database
}.

Definition with_activity (a : pydict) (w : Ckan) : Ckan :=
  mkCkan (authorized w) (userobj w) (users w) (env w) (installed w) (datasets w)
         (activities w ++ [a]) (notified w) (followers w) (queue w)
         (database w).

Definition with_notified (u : pyval) (w : Ckan) : Ckan :=
  mkCkan (authorized w) (userobj w) (users w) (env w) (installed w) (datasets w)
         (activities w) (notified w ++ [u]) (followers w) (queue w)
         (database w).

Definition with_follower (f : string * string) (w : Ckan) : Ckan :=
  mkCkan (authorized w) (userobj w) (users w) (env w) (installed w) (datasets w)
         (activities w) (notified w) (followers w ++ [f]) (queue w)
         (database w).

Definition with_job (j : JobFn * list pyval) (w : Ckan) : Ckan :=
  mkCkan (authorized w) (userobj w) (users w) (env w) (installed w) (datasets w)
         (activities w) (notified w) (followers w) (queue w ++ [j])
         (database w).

Definition not_missing := mkValidator "not_missing" 1.
Definition not_empty := mkValidator "not_empty" 2.
Definition unicode_safe := mkValidator "unicode_safe" 3.
Definition object_id_validator := mkValidator "object_id_validator" 4.
Definition activity_type_exists := mkValidator "activity_type_exists" 5.
Definition package_id_exists := mkValidator "package_id_exists" 6.
Definition ignore := mkValidator "ignore" 7.

Definition default_schema : Schema :=
  {[ "id" := [ignore];
     "timestamp" := [ignore];
     "user_id" := [not_missing; not_empty; unicode_safe];
     "object_id" := [not_missing; not_empty; unicode_safe;
                     object_id_validator];
     "activity_type" := [not_missing; not_empty; unicode_safe;
                         activity_type_exists];
     "data" := [ignore] ]}.

Definition known_actions : list string :=
  ["package_show"; "activity_create"; "emc_user_patch"; "follow_dataset"].

Definition not_found : exn :=
  ValidationError {[ "id" := PList [PStr "Not found: Dataset"] ]}.

Definition already_following : exn :=
  ValidationError {[ "message" := PStr "You are already following it" ]}.

Definition dataset_of (w : Ckan) (v : option pyval) : option (string * pydict) :=
  match v with
  | Some (PStr s) => d ← datasets w !! s; Some (s, d)
  | _ => None
  end.

Definition call_action (name : string) (context : option pydict)
    (data_dict : pydict) (w : Ckan) : Result pyval * Ckan :=
  if decide (name = "package_show") then
    match dataset_of w (data_dict !! "id") with
    | Some (_, d) => (Ok (PDict d), w)
    | None => (Raised (NotFound "Dataset not found"), w)
    end
  else if decide (name = "activity_create") then
    match dataset_of w (data_dict !! "object_id") with
    | Some _ =>
        let activity : pydict :=
          <["id" := PInt (Z.of_nat (length (activities w)))]> data_dict in
        (Ok (PDict activity), with_activity activity w)
    | None => (Raised not_found, w)
    end
  else if decide (name = "emc_user_patch") then
    match data_dict !! "id" with
    | Some (PStr name) =>
        if decide (name ∈ users w)
        then (Ok (PDict data_dict), with_notified (PStr name) w)
        else (Raised (NotFound "User not found"), w)
    | _ => (Raised (ValidationError {[ "id" := PStr "Missing value" ]}), w)
    end
  else if decide (name = "follow_dataset") then
    match userobj w with
    | None => (Raised (NotAuthorized "You must be logged in"), w)
    | Some u =>
        match dataset_of w (data_dict !! "id") with
        | None => (Raised not_found, w)
        | Some (s, _) =>
            if decide ((user_name u, s) ∈ followers w)
            then (Raised already_following, w)
            else (Ok (PDict data_dict), with_follower (user_name u, s) w)
        end
    end
  else (Raised (KeyError name), w).

Definition handler (R : Type) (c : hostE R) (w : Ckan) : Result R * Ckan :=
  match c in hostE R return Result R * Ckan with
  | CheckAccess name _ _ =>
      if decide (name ∈ authorized w) then (Ok (), w)
      else (Raised (NotAuthorized name), w)
  | PkgRequire requirement =>
      match filter (λ d, project_name d = requirement) (installed w) with
      | [] => (Raised (OtherError "DistributionNotFound" requirement), w)
      | ds => (Ok ds, w)
      end
  | DefaultCreateActivitySchema => (Ok default_schema, w)
  | GetValidator name =>
      if decide (name = "package_id_exists") then (Ok package_id_exists, w)
      else (Raised (OtherError "UnknownValidator" name), w)
  | CallAction name context data_dict => call_action name context data_dict w
  | GUserobj => (Ok (userobj w), w)
  | EnqueueJob fn args => (Ok (), with_job (fn, args) w)
  | Execute q =>
      match eval_query (database w) q with
      | Some rows => (Ok rows, w)
      | None => (Raised (OtherError "ProgrammingError" "bad query"), w)
      end
  end.

Definition observer (R : Type) (q : readE R) (w : Ckan) : R :=
  match q in readE R return R with
  | Environ name => env w !! name
  | Registered name => bool_decide (name ∈ known_actions)
  end.

Definition host : Host Ckan := mkHost Ckan handler observer.

(** A host that is indifferent to what it is asked: every call returns,
    with the same answer whatever its arguments. *)
Definition stub_handler (R : Type) (c : hostE R) (w : unit)
    : Result R * unit :=
  match c in hostE R return Result R * unit with
  | CheckAccess _ _ _ => (Ok (), w)
  | PkgRequire _ => (Ok [], w)
  | DefaultCreateActivitySchema => (Ok default_schema, w)
  | GetValidator _ => (Ok package_id_exists, w)
  | CallAction _ _ _ => (Ok (PDict {[ "id" := PInt 1 ]}), w)
  | GUserobj => (Ok (Some (mkUser "u-1" "alice")), w)
  | EnqueueJob _ _ => (Ok (), w)
  | Execute _ => (Ok [], w)
  end.

Definition stub_observer (R : Type) (q : readE R) (w : unit) : R :=
  match q in readE R return R with
  | Environ _ => None
  | Registered _ => true
  end.

Definition stub : Host unit := mkHost unit stub_handler stub_observer.

(** The values of the two activity types. *)
Definition value (t : DatasetManagementActivityType) : pyval :=
  match t with
  | REQUEST_MAINTENANCE => PStr "requested dataset maintenance"
  | REQUEST_PUBLICATION => PStr "requested dataset publication"
  end.

Definition alice := mkUser "u-1" "alice".

Definition package : Table :=
  mkTable "package" ["id"; "name"; "state"; "private"] [].

Definition package_extra : Table :=
  mkTable "package_extra" ["id"; "package_id"; "featured"]
          [("package_id", ("package", "id"))].

Definition model : Model := mkModel package package_extra.

Definition package_row (id name state : string) (private : bool) : Row :=
  {[ "id" := PStr id; "name" := PStr name; "state" := PStr state;
     "private" := PBool private ]}.

Definition extra_row (id package_id featured : string) : Row :=
  {[ "id" := PStr id; "package_id" := PStr package_id;
     "featured" := PStr featured ]}.

Definition db : Database :=
  {[ "package" := [package_row "p1" "rivers" "active" false;
                   package_row "p2" "roads" "active" false;
                   package_row "p3" "parcels" "active" true;
                   package_row "p4" "dams" "deleted" false;
                   package_row "p5" "towns" "active" false];
     "package_extra" := [extra_row "e1" "p1" "true";
                         extra_row "e2" "p2" "false";
                         extra_row "e3" "p3" "true";
                         extra_row "e4" "p4" "true";
                         extra_row "e5" "p5" "true"] ]}.

Definition rivers : pydict :=
  {[ "id" := PStr "p1"; "name" := PStr "rivers"; "private" := PBool false ]}.

(** A logged-in user with every permission. *)
Definition initial : Ckan :=
  mkCkan ["emc_authorize_list_featured_datasets";
          "emc_request_dataset_maintenance";
          "emc_request_dataset_publication"]
         (Some alice) ["alice"; "bob"]
         {[ "GIT_COMMIT" := "0a1b2c3" ]}
         [mkDistribution "ckanext-dalrrd-emc-dcpr" "0.1.0"]
         {[ "p1" := rivers ]}
         [] [] [] []
         db.

(** The same world for a caller with no permission. *)
Definition locked : Ckan :=
  mkCkan [] (Some alice) ["alice"; "bob"] ∅ [mkDistribution "ckanext-dalrrd-emc-dcpr" "0.1.0"]
         {[ "p1" := rivers ]} [] [] [] [] db.

Definition context : pydict :=
  {[ "user" := PStr "alice"; "model" := PModel model ]}.

End Demo.

(** ** Two readings of the specification, on the small host

    The first says that show_version returns its mapping on every input
    and in every state of the host; the second, that the user who ends up
    following the dataset is the context's user. *)

Definition show_version_never_fails : Prop :=
  ∀ (w : Demo.Ckan) (context data_dict : option pydict),
    ∃ shown : pydict,
      result (run Demo.host (show_version context data_dict) w) = Ok shown ∧
      is_Some (shown !! "version") ∧
      is_Some (shown !! "git_sha").

Definition subscriber_is_context_user : Prop :=
  ∀ (w : Demo.Ckan) (context data_dict : pydict) (user dataset : string),
    context !! "user" = Some (PStr user) →
    data_dict !! "pkg_id" = Some (PStr dataset) →
    let o := run Demo.host
                 (request_dataset_maintenance Demo.value context data_dict)
                 w in
    result o = Ok () →
    (user, dataset) ∈ Demo.followers (world o).


(** ** More observations, hosts and inputs *)

(** The queries handed to the database. *)
Definition executed_query (e : Entry) : option Query :=
  match e with
  | Called c _ =>
      match c with
      | Execute q => Some q
      | _ => None
      end
  | Observed _ _ => None
  end.

Definition executed_queries (tr : list Entry) := omap executed_query tr.

(** The variables read from the process environment. *)
Definition environment_read (e : Entry) : option string :=
  match e with
  | Observed q _ =>
      match q with
      | Environ name => Some name
      | Registered _ => None
      end
  | Called _ _ => None
  end.

Definition environment_reads (tr : list Entry) := omap environment_read tr.

Module Cases.

(** Nobody is logged in. *)
Definition anonymous : Demo.Ckan :=
  Demo.mkCkan (Demo.authorized Demo.initial) None (Demo.users Demo.initial)
    (Demo.env Demo.initial) (Demo.installed Demo.initial)
    (Demo.datasets Demo.initial) [] [] [] [] (Demo.database Demo.initial).

(** The package's distribution is not in the working set. *)
Definition uninstalled : Demo.Ckan :=
  Demo.mkCkan (Demo.authorized Demo.initial) (Some Demo.alice)
    (Demo.users Demo.initial) (Demo.env Demo.initial) []
    (Demo.datasets Demo.initial) [] [] [] [] (Demo.database Demo.initial).

(** The small host with its job queue down. *)
Definition queue_down_handler (R : Type) (c : hostE R) (w : Demo.Ckan)
    : Result R * Demo.Ckan :=
  match c in hostE R return Result R * Demo.Ckan with
  | EnqueueJob _ _ => (Raised (OtherError "ConnectionError" "queue down"), w)
  | other => Demo.handler _ other w
  end.

Definition queue_down : Host Demo.Ckan :=
  mkHost Demo.Ckan queue_down_handler Demo.observer.

(** The small host with an activity-create action that returns nothing. *)
Definition mute_handler (R : Type) (c : hostE R) (w : Demo.Ckan)
    : Result R * Demo.Ckan :=
  match c in hostE R return Result R * Demo.Ckan with
  | CallAction name context data_dict =>
      if decide (name = "activity_create") then (Ok PNone, w)
      else Demo.call_action name context data_dict w
  | other => Demo.handler _ other w
  end.

Definition mute : Host Demo.Ckan :=
  mkHost Demo.Ckan mute_handler Demo.observer.

(** The small host with a default schema that has the "activity_type"
    field only. *)
Definition bare_schema : Schema :=
  {[ "activity_type" := [Demo.not_missing; Demo.activity_type_exists] ]}.

Definition bare_handler (R : Type) (c : hostE R) (w : Demo.Ckan)
    : Result R * Demo.Ckan :=
  match c in hostE R return Result R * Demo.Ckan with
  | DefaultCreateActivitySchema => (Ok bare_schema, w)
  | other => Demo.handler _ other w
  end.

Definition bare : Host Demo.Ckan :=
  mkHost Demo.Ckan bare_handler Demo.observer.

(** Extras stored as key and value columns, with no column per key. *)
Definition key_value_extra : Table :=
  mkTable "package_extra" ["id"; "package_id"; "key"; "value"]
          [("package_id", ("package", "id"))].

Definition key_value_model : Model := mkModel Demo.package key_value_extra.

(** A catalogue with its extras stored that way: of its four datasets,
    "rivers" and "towns" are featured, active and public. *)
Definition key_value_row (id package_id key value : string) : Row :=
  {[ "id" := PStr id; "package_id" := PStr package_id;
     "key" := PStr key; "value" := PStr value ]}.

Definition packages : list Row :=
  [Demo.package_row "p1" "rivers" "active" false;
   Demo.package_row "p2" "roads" "active" false;
   Demo.package_row "p3" "parcels" "active" true;
   Demo.package_row "p5" "towns" "active" false].

Definition extras : list Row :=
  [key_value_row "e1" "p1" "featured" "true";
   key_value_row "e2" "p2" "featured" "false";
   key_value_row "e3" "p3" "featured" "true";
   key_value_row "e4" "p1" "theme" "water";
   key_value_row "e5" "p5" "featured" "true"].

Definition catalogue : Demo.Ckan :=
  Demo.mkCkan (Demo.authorized Demo.initial) (Some Demo.alice)
    (Demo.users Demo.initial) (Demo.env Demo.initial)
    (Demo.installed Demo.initial) (Demo.datasets Demo.initial) [] [] [] []
    {[ "package" := packages; "package_extra" := extras ]}.

Definition key_value_context : pydict :=
  {[ "user" := PStr "alice"; "model" := PModel key_value_model ]}.






(** A schema in which activity_type_exists stands twice. *)
Definition twice : list Validator :=
  [Demo.not_missing; Demo.activity_type_exists; Demo.not_empty;
   mkValidator "activity_type_exists" 50].

End Cases.

(** * Properties *)

(** ** Running composed programs *)

Section Runs.
Context {World : Type} (h : Host World).

Lemma run_bind {A B} (p : Prog A) (f : A → Prog B) (w : World) :
  run h (bind p f) w =
    match result (run h p w) with
    | Ok a => logged (trace (run h p w)) (run h (f a) (world (run h p w)))
    | Raised e => mkOutcome (Raised e) (world (run h p w)) (trace (run h p w))
    end.
Proof.
  revert w.
  induction p as [a|e|R c k IH|R q k IH]; intros w; cbn.
  - by destruct (run h (f a) w).
  - done.
  - rewrite IH. by destruct (result (run h (k _) _)).
  - rewrite IH. by destruct (result (run h (k _) _)).
Qed.

Lemma run_mbind {A B} (p : Prog A) (f : A → Prog B) (w : World) :
  run h (p ≫= f) w =
    match result (run h p w) with
    | Ok a => logged (trace (run h p w)) (run h (f a) (world (run h p w)))
    | Raised e => mkOutcome (Raised e) (world (run h p w)) (trace (run h p w))
    end.
Proof. apply run_bind. Qed.

Lemma getitem_present {V} (d : gmap string V) (key : string) (v : V) :
  d !! key = Some v → getitem d key = Ok v.
Proof. intros Hv. unfold getitem. by rewrite Hv. Qed.

Lemma getitem_ok {V} (d : gmap string V) (key : string) (v : V) :
  getitem d key = Ok v → d !! key = Some v.
Proof. unfold getitem. by destruct (d !! key); intros [= ->]. Qed.

Lemma run_call_ok {R} (c : hostE R) (w w' : World) (v : R) :
  handle h c w = (Ok v, w') →
  run h (call c) w = mkOutcome (Ok v) w' [Called c (Ok v)].
Proof. intros Hc. cbn. by rewrite Hc. Qed.

Lemma run_call_raised {R} (c : hostE R) (w w' : World) (e : exn) :
  handle h c w = (Raised e, w') →
  run h (call c) w = mkOutcome (Raised e) w' [Called c (Raised e)].
Proof. intros Hc. cbn. by rewrite Hc. Qed.

(** A raising body hands over to the handler when the exception is one the
    clause names, and raises it otherwise; a body that returns is left
    alone. *)
Lemma run_try_except {A} (body handler : Prog A) (handles : exn → bool)
    (w : World) :
  run h (try_except body handles handler) w =
    match result (run h body w) with
    | Ok a => run h body w
    | Raised e =>
        if handles e
        then logged (trace (run h body w))
                    (run h handler (world (run h body w)))
        else run h body w
    end.
Proof.
  revert w.
  induction body as [a|e|R c k IH|R q k IH]; intros w; cbn.
  - done.
  - destruct (handles e); [|done]. by destruct (run h handler w).
  - rewrite IH. destruct (result (run h (k _) _)); [done|].
    by destruct (handles e).
  - rewrite IH. destruct (result (run h (k _) _)); [done|].
    by destruct (handles e).
Qed.

End Runs.

(** ** Observations on concatenated traces *)

Lemma steps_app (tr1 tr2 : list Entry) :
  steps (tr1 ++ tr2) = steps tr1 ++ steps tr2.
Proof. apply omap_app. Qed.

Lemma action_calls_app (name : string) (tr1 tr2 : list Entry) :
  action_calls name (tr1 ++ tr2) =
  action_calls name tr1 ++ action_calls name tr2.
Proof. apply omap_app. Qed.

Lemma enqueued_jobs_app (tr1 tr2 : list Entry) :
  enqueued_jobs (tr1 ++ tr2) = enqueued_jobs tr1 ++ enqueued_jobs tr2.
Proof. apply omap_app. Qed.

Lemma access_checks_app (tr1 tr2 : list Entry) :
  access_checks (tr1 ++ tr2) = access_checks tr1 ++ access_checks tr2.
Proof. apply omap_app. Qed.

(** ** Authorization comes first *)

Section Authorization.
Context {World : Type} (h : Host World).
Variable value : DatasetManagementActivityType → pyval.

Lemma refused_run {A} (name : string) (context : pydict)
    (data_dict : option pydict) (k : unit → Prog A) (msg : string)
    (w w' : World) :
  handle h (CheckAccess name context data_dict) w
    = (Raised (NotAuthorized msg), w') →
  refused_at (CheckAccess name context data_dict) msg w'
    (run h (bind (call (CheckAccess name context data_dict)) k) w).
Proof.
  intros Hc. rewrite run_bind, (run_call_raised _ _ _ _ _ Hc). by cbn.
Qed.

(** C1: when the authorization check of a protected action raises
    NotAuthorized, the action raises that NotAuthorized and the check is the
    only host call of the run: no activity is created, no user is patched,
    no follow is attempted and no job is enqueued; the host is left in the
    state the check left it in. *)
Theorem unauthorized_call_has_no_effect
    (context data_dict : pydict) (options : option pydict) (msg : string)
    (w w' : World) :
  (handle h (CheckAccess "emc_authorize_list_featured_datasets"
               context options) w
     = (Raised (NotAuthorized msg), w') →
   refused_at (CheckAccess "emc_authorize_list_featured_datasets"
                 context options) msg w'
     (run h (list_featured_datasets context options) w)) ∧
  (handle h (CheckAccess "emc_request_dataset_maintenance"
               context (Some data_dict)) w
     = (Raised (NotAuthorized msg), w') →
   refused_at (CheckAccess "emc_request_dataset_maintenance"
                 context (Some data_dict)) msg w'
     (run h (request_dataset_maintenance value context data_dict) w)) ∧
  (handle h (CheckAccess "emc_request_dataset_publication"
               context (Some data_dict)) w
     = (Raised (NotAuthorized msg), w') →
   refused_at (CheckAccess "emc_request_dataset_publication"
                 context (Some data_dict)) msg w'
     (run h (request_dataset_publication value context data_dict) w)).
Proof.
  split_and!; intros Hc; by apply refused_run.
Qed.

End Authorization.

(** A caller with no permission on the small host: all three actions are
    refused and nothing is done. *)
Lemma unauthorized_call_has_no_effect_witness :
  let data_dict : pydict := {[ "pkg_id" := PStr "p1" ]} in
  refused_at (CheckAccess "emc_authorize_list_featured_datasets"
                Demo.context None)
    "emc_authorize_list_featured_datasets" Demo.locked
    (run Demo.host (list_featured_datasets Demo.context None)
         Demo.locked) ∧
  refused_at (CheckAccess "emc_request_dataset_maintenance"
                Demo.context (Some data_dict))
    "emc_request_dataset_maintenance" Demo.locked
    (run Demo.host
         (request_dataset_maintenance Demo.value Demo.context data_dict)
         Demo.locked) ∧
  refused_at (CheckAccess "emc_request_dataset_publication"
                Demo.context (Some data_dict))
    "emc_request_dataset_publication" Demo.locked
    (run Demo.host
         (request_dataset_publication Demo.value Demo.context data_dict)
         Demo.locked).
Proof.
  intros data_dict.
  destruct (unauthorized_call_has_no_effect Demo.host Demo.value
              Demo.context data_dict None
              "emc_authorize_list_featured_datasets"
              Demo.locked Demo.locked) as (Hlist & _ & _).
  destruct (unauthorized_call_has_no_effect Demo.host Demo.value
              Demo.context data_dict None
              "emc_request_dataset_maintenance"
              Demo.locked Demo.locked) as (_ & Hmaintenance & _).
  destruct (unauthorized_call_has_no_effect Demo.host Demo.value
              Demo.context data_dict None
              "emc_request_dataset_publication"
              Demo.locked Demo.locked) as (_ & _ & Hpublication).
  split_and!.
  - exact (Hlist eq_refl).
  - exact (Hmaintenance eq_refl).
  - exact (Hpublication eq_refl).
Defined.
(** ** The version reporter *)

Section Version.
Context {World : Type} (h : Host World).

(** C8, as the code has it: for every context and data dictionary, absent
    or not, show_version makes no authorization check, and whenever
    pkg_resources resolves the package's distribution it returns a mapping
    with exactly the keys "version" and "git_sha"; "version" is the version
    of the first distribution found and "git_sha" is the value of
    GIT_COMMIT, None when the variable is unset.  Its error conditions are
    those of the lookup and no other: it raises what pkg_resources.require
    raises, and IndexError when the lookup gives an empty list. *)
Theorem show_version_reports
    (context data_dict : option pydict) (w : World) :
  let o := run h (show_version context data_dict) w in
  let lookup := handle h (PkgRequire "ckanext-dalrrd-emc-dcpr") w in
  access_checks (trace o) = [] ∧
  steps (trace o) = [] ∧
  world o = lookup.2 ∧
  (∀ dist others, lookup.1 = Ok (dist :: others) →
     ∃ shown : pydict,
       result o = Ok shown ∧
       shown !! "version" = Some (PStr (version dist)) ∧
       shown !! "git_sha"
         = Some (opt_str (observe h (Environ "GIT_COMMIT") lookup.2)) ∧
       (observe h (Environ "GIT_COMMIT") lookup.2 = None →
          shown !! "git_sha" = Some PNone) ∧
       dom shown = {[ "version"; "git_sha" ]}) ∧
  (∀ e, lookup.1 = Raised e → result o = Raised e) ∧
  (lookup.1 = Ok [] →
     result o = Raised (IndexError "list index out of range")) ∧
  (∀ e, result o = Raised e →
     lookup.1 = Raised e ∨
     (lookup.1 = Ok [] ∧ e = IndexError "list index out of range")).
Proof.
  intros o lookup. subst o lookup. unfold show_version. cbn.
  destruct (handle h (PkgRequire "ckanext-dalrrd-emc-dcpr") w)
    as [[[|dist others]|e] w'] eqn:Hlookup; cbn.
  - split_and!; try done.
    intros e [= <-]. by right.
  - split_and!; try done.
    intros dist' others' [= <- <-]. eexists.
    split_and!; try done. by intros ->.
  - split_and!; try done.
    + by intros e' [= <-].
    + intros e' [= <-]. by left.
Qed.

End Version.

(** On the small host: GIT_COMMIT is set in one world and unset in the
    other. *)
Lemma show_version_reports_witness :
  (∃ shown : pydict,
     result (run Demo.host (show_version None None) Demo.initial) = Ok shown ∧
     shown !! "version" = Some (PStr "0.1.0") ∧
     shown !! "git_sha" = Some (PStr "0a1b2c3")) ∧
  (∃ shown : pydict,
     result (run Demo.host (show_version (Some Demo.context) (Some ∅))
                 Demo.locked) = Ok shown ∧
     shown !! "git_sha" = Some PNone).
Proof.
  split.
  - destruct (show_version_reports Demo.host None None Demo.initial)
      as (_ & _ & _ & Hshown & _).
    destruct (Hshown (mkDistribution "ckanext-dalrrd-emc-dcpr" "0.1.0") []
                eq_refl)
      as (shown & Hres & Hversion & Hsha & _).
    exists shown. split_and!; [exact Hres | exact Hversion | exact Hsha].
  - destruct (show_version_reports Demo.host (Some Demo.context) (Some ∅)
                Demo.locked)
      as (_ & _ & _ & Hshown & _).
    destruct (Hshown (mkDistribution "ckanext-dalrrd-emc-dcpr" "0.1.0") []
                eq_refl)
      as (shown & Hres & _ & _ & Hunset & _).
    exists shown. split; [exact Hres | apply Hunset; reflexivity].
Defined.

(** C8 as stated fails: where the package's distribution is not in the
    working set, pkg_resources.require raises DistributionNotFound and so
    does show_version. *)
Lemma show_version_raises_when_not_installed :
  ¬ show_version_never_fails.
Proof.
  intros Hclaim.
  destruct (Hclaim Cases.uninstalled None None) as (shown & Hres & _).
  discriminate Hres.
Qed.

(** ** The schema patch *)

Lemma find_validator_name (name : string) (l : list Validator) (v : Validator) :
  find_validator name l = Some v → v_name v = name.
Proof.
  induction l as [|x l IH]; cbn; [done|].
  case_decide; [|done]. by intros [= <-].
Qed.

Lemma find_validator_none (name : string) (l : list Validator) :
  find_validator name l = None ↔ name ∉ v_name <$> l.
Proof.
  induction l as [|x l IH]; cbn.
  - split; [intros _; apply not_elem_of_nil | done].
  - rewrite not_elem_of_cons, <- IH. case_decide.
    + split; [done | intros [? _]; congruence].
    + split; [done | by intros [_ ?]].
Qed.

(** [remove] finds the validator the loop found: the two scans stop at the
    same item, so the list loses its first validator of that name. *)
Lemma list_remove_found (name : string) (l : list Validator) (v : Validator) :
  find_validator name l = Some v → list_remove v l = Ok (without name l).
Proof.
  induction l as [|x l IH]; cbn; [done|].
  case_decide as Hname.
  - intros [= <-]. by rewrite decide_True.
  - intros Hfind. rewrite decide_False.
    + by rewrite (IH Hfind).
    + intros ->. by apply find_validator_name in Hfind.
Qed.

Lemma without_absent (name : string) (l : list Validator) :
  name ∉ v_name <$> l → without name l = l.
Proof.
  induction l as [|x l IH]; cbn; [done|].
  rewrite not_elem_of_cons. intros [Hx Hl].
  rewrite decide_False by done. by rewrite IH.
Qed.

Lemma without_other (name : string) (l : list Validator) (v : Validator) :
  v_name v ≠ name → v ∈ without name l ↔ v ∈ l.
Proof.
  intros Hv. induction l as [|x l IH]; cbn; [done|].
  case_decide; rewrite ?elem_of_cons.
  - split; [auto|]. intros [->|?]; [congruence | done].
  - by rewrite IH.
Qed.

(** One validator of that name goes, the others stay. *)
Lemma without_count (name : string) (l : list Validator) :
  length (filter (λ v, v_name v = name) (without name l)) =
  pred (length (filter (λ v, v_name v = name) l)).
Proof.
  induction l as [|x l IH]; [done|].
  cbn [without]. destruct (decide (v_name x = name)) as [Hname|Hname].
  - by rewrite filter_cons_True.
  - by rewrite !filter_cons_False.
Qed.

Lemma without_unique (name : string) (l : list Validator) :
  (length (filter (λ v, v_name v = name) l) ≤ 1)%nat →
  name ∉ v_name <$> without name l.
Proof.
  intros Hle Hin.
  apply list_elem_of_fmap in Hin as (v & Hname & Hv).
  assert (v ∈ filter (λ v, v_name v = name) (without name l)) as Hf
    by by apply list_elem_of_filter.
  pose proof (without_count name l) as Hcount.
  destruct (filter _ (without name l)); [by apply elem_of_nil in Hf|].
  cbn in Hcount. lia.
Qed.

Lemma remove_validator_present (schema : Schema) (field name : string)
    (l : list Validator) :
  schema !! field = Some l →
  remove_validator schema field name = Ok (<[field := without name l]> schema).
Proof.
  intros Hl. unfold remove_validator, getitem. rewrite Hl. cbn.
  destruct (find_validator name l) as [v|] eqn:Hfind.
  - by rewrite (list_remove_found _ _ _ Hfind).
  - apply find_validator_none in Hfind.
    by rewrite without_absent, insert_id.
Qed.

(** ** Walking through a run

    [walk_in H] follows the run in [H] call by call: at each host call it
    splits on whether the host returned or raised, at each pure step on
    whether the step raised. *)

Local Arguments remove_validator : simpl never.
Local Arguments getitem : simpl never.
Local Arguments subscript : simpl never.

Ltac walk_in H :=
  repeat (
    cbn in H;
    match type of H with
    | context [handle ?h' ?c ?w] =>
        is_var w;
        let r := fresh "r" in
        let w' := fresh "w" in
        let Hcall := fresh "Hcall" in
        destruct (handle h' c w) as [[r|r] w'] eqn:Hcall
    | context [observe ?h' (Registered ?n) ?w] =>
        is_var w;
        let Hreg := fresh "Hreg" in
        destruct (observe h' (Registered n) w) eqn:Hreg
    | context [match ?r with Some _ => _ | None => _ end] =>
        let Hpure := fresh "Hpure" in destruct r eqn:Hpure
    | context [lift ?r] =>
        let Hpure := fresh "Hpure" in destruct r eqn:Hpure
    | context [match ?r with Ok _ => _ | Raised _ => _ end] =>
        let Hpure := fresh "Hpure" in destruct r eqn:Hpure
    | context [if is_ValidationError ?e then _ else _] =>
        let Hve := fresh "Hve" in destruct (is_ValidationError e) eqn:Hve
    end).

Ltac walk_request H :=
  unfold request_dataset_management, _create_dataset_management_activity,
    _ensure_user_is_notifiable in H;
  walk_in H.

(** The two handlers are the one shape, at their check and activity type. *)
Lemma operation_handler_shape
    (value : DatasetManagementActivityType → pyval) (op : Operation) :
  operation_handler value op =
  request_dataset_management value (operation_check op) (operation_type op).
Proof. by destruct op. Qed.

Section SchemaPatch.
Context {World : Type} (h : Host World).
Variable value : DatasetManagementActivityType → pyval.

(** C5: the patcher takes the schema the host's
    default_create_activity_schema returns in this call and, with no
    error, gives the activity-create action a schema in which the
    "activity_type" list has lost its validator named activity_type_exists,
    the "object_id" list has lost its validator named object_id_validator
    and has package_id_exists appended, and every other field is as the
    host gave it: once the dataset has been shown and the user read, the
    one activity-create call of the run carries that schema.  A list in
    which the named validator is absent is left as it is; a list that
    holds the name once holds it no more. *)
Theorem activity_schema_patch
    (dataset_id : pyval) (activity_type : DatasetManagementActivityType)
    (schema : Schema) (types objects : list Validator)
    (package_id_exists : Validator) (w w1 w2 : World) :
  handle h DefaultCreateActivitySchema w = (Ok schema, w1) →
  schema !! "activity_type" = Some types →
  schema !! "object_id" = Some objects →
  handle h (GetValidator "package_id_exists") w1 = (Ok package_id_exists, w2) →
  let patched := patched_schema schema types objects package_id_exists in
  let o := run h (_create_dataset_management_activity
                    value dataset_id activity_type) w in
  (∃ rest,
     trace o =
       Called DefaultCreateActivitySchema (Ok schema)
       :: Called (GetValidator "package_id_exists") (Ok package_id_exists)
       :: Observed (Registered "package_show")
            (observe h (Registered "package_show") w2)
       :: rest) ∧
  Forall (λ called, called.1.1 = Some (activity_context patched))
         (action_calls "activity_create" (trace o)) ∧
  (∀ (dataset : pyval) (u : User) (w3 w4 : World),
     observe h (Registered "package_show") w2 = true →
     handle h (CallAction "package_show" None {[ "id" := dataset_id ]}) w2
       = (Ok dataset, w3) →
     observe h (Registered "activity_create") w3 = true →
     handle h GUserobj w3 = (Ok (Some u), w4) →
     let created :=
       handle h (CallAction "activity_create"
                   (Some (activity_context patched))
                   (activity_data (PStr (user_id u)) dataset_id
                                  (value activity_type) dataset)) w4 in
     action_calls "activity_create" (trace o)
       = [(Some (activity_context patched),
           activity_data (PStr (user_id u)) dataset_id
                         (value activity_type) dataset,
           created.1)] ∧
     result o = created.1 ∧
     world o = created.2) ∧
  patched !! "activity_type" = Some (without "activity_type_exists" types) ∧
  patched !! "object_id"
    = Some (without "object_id_validator" objects ++ [package_id_exists]) ∧
  (∀ field, field ≠ "activity_type" → field ≠ "object_id" →
     patched !! field = schema !! field) ∧
  ("activity_type_exists" ∉ v_name <$> types →
     patched !! "activity_type" = Some types) ∧
  ("object_id_validator" ∉ v_name <$> objects →
     patched !! "object_id" = Some (objects ++ [package_id_exists])) ∧
  ((length (filter (λ v, v_name v = "activity_type_exists") types) ≤ 1)%nat →
     ∀ v, patched !! "activity_type" = Some v →
          "activity_type_exists" ∉ v_name <$> v) ∧
  ((length (filter (λ v, v_name v = "object_id_validator") objects) ≤ 1)%nat →
     package_id_exists.(v_name) ≠ "object_id_validator" →
     ∀ v, patched !! "object_id" = Some v →
          "object_id_validator" ∉ v_name <$> v).
Proof.
  intros Hdefault Htypes Hobjects Hvalidator patched o.
  assert (patched !! "activity_type"
            = Some (without "activity_type_exists" types)) as Hpt.
  { unfold patched, patched_schema.
    by rewrite lookup_insert_ne, lookup_insert_eq. }
  assert (patched !! "object_id"
            = Some (without "object_id_validator" objects
                      ++ [package_id_exists])) as Hpo.
  { unfold patched, patched_schema. by rewrite lookup_insert_eq. }
  assert (remove_validator schema "activity_type" "activity_type_exists"
            = Ok (<["activity_type" := without "activity_type_exists" types]>
                    schema)) as Hfirst
    by by apply remove_validator_present.
  assert (remove_validator
            (<["activity_type" := without "activity_type_exists" types]>
               schema) "object_id" "object_id_validator"
            = Ok (<["object_id" := without "object_id_validator" objects]>
                    (<["activity_type" :=
                         without "activity_type_exists" types]> schema)))
    as Hsecond.
  { apply remove_validator_present. by rewrite lookup_insert_ne. }
  assert (∀ s : Schema,
            getitem (<["object_id" := without "object_id_validator" objects]> s)
                    "object_id"
            = Ok (without "object_id_validator" objects)) as Hthird.
  { intros s. unfold getitem. by rewrite lookup_insert_eq. }
  split_and!.
  - subst o. unfold _create_dataset_management_activity. cbn.
    rewrite Hdefault. cbn. rewrite Hfirst. cbn. rewrite Hsecond. cbn.
    rewrite Hthird. cbn. rewrite Hvalidator. cbn. eauto.
  - remember o as o' eqn:Ho. subst o.
    unfold _create_dataset_management_activity in Ho. cbn in Ho.
    rewrite Hdefault in Ho. cbn in Ho. rewrite Hfirst in Ho. cbn in Ho.
    rewrite Hsecond in Ho. cbn in Ho. rewrite Hthird in Ho. cbn in Ho.
    rewrite Hvalidator in Ho. cbn in Ho. rewrite insert_insert_eq in Ho.
    walk_in Ho; subst o'; simpl; repeat constructor.
  - intros dataset u w3 w4 Hshow Hshown Hcreate Huser created.
    subst o created. unfold _create_dataset_management_activity. cbn.
    rewrite Hdefault. cbn. rewrite Hfirst. cbn. rewrite Hsecond. cbn.
    rewrite Hthird. cbn. rewrite Hvalidator. cbn. rewrite insert_insert_eq.
    rewrite Hshow. cbn. rewrite Hshown. cbn. rewrite Hcreate. cbn.
    rewrite Huser. cbn.
    fold (patched_schema schema types objects package_id_exists).
    fold patched. unfold activity_context, activity_data.
    by destruct (handle h (CallAction "activity_create" _ _) w4) as [[?|?] ?].
  - done.
  - done.
  - intros field Ht Ho. unfold patched, patched_schema.
    by rewrite !lookup_insert_ne.
  - intros Habsent. by rewrite Hpt, without_absent.
  - intros Habsent. by rewrite Hpo, without_absent.
  - intros Honce v Hv. rewrite Hpt in Hv. injection Hv as <-.
    by apply without_unique.
  - intros Honce Hname v Hv. rewrite Hpo in Hv. injection Hv as <-.
    rewrite fmap_app, elem_of_app. intros [Hin|Hin].
    + by apply without_unique in Hin.
    + apply list_elem_of_singleton in Hin. by apply Hname.
Qed.

End SchemaPatch.

(** ** The request handlers *)

Local Arguments _create_dataset_management_activity : simpl never.
Local Arguments _ensure_user_is_notifiable : simpl never.

Section Requests.
Context {World : Type} (h : Host World).
Variable value : DatasetManagementActivityType → pyval.

(** Creating the activity takes no step but the creation, and that one at
    most once; it takes the step whenever it returns. *)
Lemma create_activity_steps (dataset_id : pyval)
    (activity_type : DatasetManagementActivityType) (w : World) :
  let o := run h (_create_dataset_management_activity
                    value dataset_id activity_type) w in
  steps (trace o) `prefix_of` [CreateActivity] ∧
  enqueued_jobs (trace o) = [] ∧
  (∀ activity, result o = Ok activity →
     steps (trace o) = [CreateActivity] ∧
     length (action_calls "activity_create" (trace o)) = 1%nat).
Proof.
  intros o. remember o as o' eqn:Ho. subst o.
  unfold _create_dataset_management_activity in Ho.
  walk_in Ho; subst o'; simpl; split_and!;
    try done; try apply prefix_nil; try by eexists.
Qed.

(** Making the user notifiable patches the user, then follows the dataset,
    and enqueues nothing. *)
Lemma ensure_notifiable_steps (user dataset_id : pyval) (w : World) :
  let o := run h (_ensure_user_is_notifiable user dataset_id) w in
  steps (trace o) `prefix_of` [PatchUser; FollowDataset] ∧
  enqueued_jobs (trace o) = [] ∧
  action_calls "activity_create" (trace o) = [] ∧
  (result o = Ok () → steps (trace o) = [PatchUser; FollowDataset]).
Proof.
  intros o. remember o as o' eqn:Ho. subst o.
  unfold _ensure_user_is_notifiable in Ho.
  walk_in Ho; subst o'; simpl; split_and!;
    try done; try apply prefix_nil; try (by eexists);
    try (by apply prefix_cons, prefix_nil).
Qed.

(** A ValidationError of the follow call does not stop the helper. *)
Lemma ensure_notifiable_swallows (user dataset_id : pyval)
    (error_dict : pydict) (w : World) :
  (Some FollowDataset, ValidationError error_dict)
    ∈ raised_by_calls (trace (run h (_ensure_user_is_notifiable
                                       user dataset_id) w)) →
  result (run h (_ensure_user_is_notifiable user dataset_id) w) = Ok ().
Proof.
  remember (run h _ w) as o eqn:Ho.
  unfold _ensure_user_is_notifiable in Ho.
  walk_in Ho; subst o; simpl; intros Hin; try done.
  all: repeat (apply elem_of_cons in Hin as [Hin|Hin]; [by simplify_eq|]).
  all: by apply elem_of_nil in Hin.
Qed.

(** How a request runs once the check has passed and the dataset id is
    there: the activity is created, and the rest follows only if that
    returned. *)
Lemma request_run_created (check : string)
    (activity_type : DatasetManagementActivityType)
    (context data_dict : pydict) (pkg_id : pyval) (w w1 : World) :
  handle h (CheckAccess check context (Some data_dict)) w = (Ok (), w1) →
  data_dict !! "pkg_id" = Some pkg_id →
  let created := run h (_create_dataset_management_activity
                          value pkg_id activity_type) w1 in
  run h (request_dataset_management value check activity_type
           context data_dict) w =
  logged [Called (CheckAccess check context (Some data_dict)) (Ok ())]
    match result created with
    | Raised e => mkOutcome (Raised e) (world created) (trace created)
    | Ok activity =>
        logged (trace created)
          (run h
             (user ← lift (getitem context "user");
              pkg_id ← lift (getitem data_dict "pkg_id");
              _ ← _ensure_user_is_notifiable user pkg_id;
              activity_id ← lift (subscript activity "id");
              _ ← call (EnqueueJob
                          notify_org_admins_of_dataset_management_request
                          [activity_id]);
              mret ())
             (world created))
    end.
Proof.
  intros Hcheck Hpkg created. unfold request_dataset_management. cbn.
  rewrite Hcheck. cbn. rewrite !(getitem_present _ _ _ Hpkg). cbn.
  rewrite run_mbind. fold created. by destruct (result created).
Qed.

Lemma request_run_notified (context data_dict : pydict)
    (user pkg_id activity : pyval) (w : World) :
  context !! "user" = Some user →
  data_dict !! "pkg_id" = Some pkg_id →
  let notified := run h (_ensure_user_is_notifiable user pkg_id) w in
  run h
    (user ← lift (getitem context "user");
     pkg_id ← lift (getitem data_dict "pkg_id");
     _ ← _ensure_user_is_notifiable user pkg_id;
     activity_id ← lift (subscript activity "id");
     _ ← call (EnqueueJob notify_org_admins_of_dataset_management_request
                 [activity_id]);
     mret ())
    w =
  match result notified with
  | Raised e => mkOutcome (Raised e) (world notified) (trace notified)
  | Ok _ =>
      logged (trace notified)
        (run h
           (activity_id ← lift (subscript activity "id");
            _ ← call (EnqueueJob
                        notify_org_admins_of_dataset_management_request
                        [activity_id]);
            mret ())
           (world notified))
  end.
Proof.
  intros Huser Hpkg notified.
  rewrite (getitem_present _ _ _ Huser), (getitem_present _ _ _ Hpkg). cbn.
  rewrite run_mbind. fold notified. by destruct (result notified).
Qed.

End Requests.

Section Order.
Context {World : Type} (h : Host World).
Variable value : DatasetManagementActivityType → pyval.

Lemma request_steps (check : string)
    (activity_type : DatasetManagementActivityType)
    (context data_dict : pydict) (w : World) :
  let o := run h (request_dataset_management value check activity_type
                    context data_dict) w in
  steps (trace o) `prefix_of`
    [CreateActivity; PatchUser; FollowDataset; EnqueueNotification] ∧
  (result o = Ok () →
   steps (trace o)
     = [CreateActivity; PatchUser; FollowDataset; EnqueueNotification]).
Proof.
  intros o. remember o as o' eqn:Ho. subst o. walk_request Ho.
  all: subst o'; simpl; split; try done.
  all: try apply prefix_nil.
  all: try (by eexists).
Qed.

(** C2: in a maintenance or publication request the four steps are taken
    in the order create activity, patch the user's notification preference,
    follow the dataset, enqueue the job: the steps of any run are a prefix
    of that sequence, and all four when the request returns.  When the
    creation of the activity raises, or making the user notifiable does,
    the request raises that exception, leaves the host where the failing
    part left it, and no job is enqueued. *)
Theorem request_steps_in_order (op : Operation)
    (context data_dict : pydict) (w : World) :
  let o := run h (operation_handler value op context data_dict) w in
  steps (trace o) `prefix_of`
    [CreateActivity; PatchUser; FollowDataset; EnqueueNotification] ∧
  (result o = Ok () →
   steps (trace o)
     = [CreateActivity; PatchUser; FollowDataset; EnqueueNotification]) ∧
  (∀ (w1 : World) (pkg_id : pyval),
     handle h (CheckAccess (operation_check op) context (Some data_dict)) w
       = (Ok (), w1) →
     data_dict !! "pkg_id" = Some pkg_id →
     let created := run h (_create_dataset_management_activity
                             value pkg_id (operation_type op)) w1 in
     (∀ e, result created = Raised e →
        result o = Raised e ∧ world o = world created ∧
        enqueued_jobs (trace o) = []) ∧
     (∀ activity user e,
        result created = Ok activity →
        context !! "user" = Some user →
        let notified := run h (_ensure_user_is_notifiable user pkg_id)
                            (world created) in
        result notified = Raised e →
        result o = Raised e ∧ world o = world notified ∧
        enqueued_jobs (trace o) = [])).
Proof.
  rewrite operation_handler_shape. intros o.
  pose proof (request_steps (operation_check op) (operation_type op)
                context data_dict w) as [Hprefix Hall].
  split_and!; [exact Hprefix | exact Hall |].
  intros w1 pkg_id Hcheck Hpkg created.
  pose proof (create_activity_steps h value pkg_id (operation_type op) w1)
    as (_ & Hquiet & _). fold created in Hquiet.
  subst o. rewrite (request_run_created h value _ _ _ _ _ _ _ Hcheck Hpkg).
  fold created. clearbody created. split.
  - intros e He. rewrite He. cbn. by split_and!.
  - intros activity user e Hactivity Huser notified Hnotified.
    pose proof (ensure_notifiable_steps h user pkg_id (world created))
      as (_ & Hquiet' & _ & _). fold notified in Hquiet'.
    rewrite Hactivity.
    rewrite (request_run_notified h _ _ _ _ _ _ Huser Hpkg).
    fold notified. clearbody notified. rewrite Hnotified. cbn.
    unfold enqueued_jobs in Hquiet, Hquiet'.
    by rewrite omap_app, Hquiet, Hquiet'.
Qed.

End Order.

Section Effects.
Context {World : Type} (h : Host World).
Variable value : DatasetManagementActivityType → pyval.

(** C6: a maintenance or publication request that returns has made exactly
    one activity-create call, for the dataset id it was given, with the
    operation's activity type and with the representation of the dataset
    that the one package_show call for that id returned; and it has
    enqueued exactly one job, whose argument is the "id" of the activity
    that call returned.  In between it has patched the notification
    preference of the context's user and attempted one follow. *)
Theorem successful_request_effects (op : Operation)
    (context data_dict : pydict) (w : World) :
  let o := run h (operation_handler value op context data_dict) w in
  result o = Ok () →
  ∃ (pkg_id user dataset activity activity_id patched : pyval)
    (u : User) (schema : Schema) (followed : Result pyval),
    data_dict !! "pkg_id" = Some pkg_id ∧
    context !! "user" = Some user ∧
    action_calls "package_show" (trace o)
      = [(None, {[ "id" := pkg_id ]}, Ok dataset)] ∧
    action_calls "activity_create" (trace o)
      = [(Some (activity_context schema),
          activity_data (PStr (user_id u)) pkg_id
                        (value (operation_type op)) dataset,
          Ok activity)] ∧
    subscript activity "id" = Ok activity_id ∧
    action_calls "emc_user_patch" (trace o)
      = [(None, notification_data user, Ok patched)] ∧
    action_calls "follow_dataset" (trace o)
      = [(None, {[ "id" := pkg_id ]}, followed)] ∧
    enqueued_jobs (trace o)
      = [(notify_org_admins_of_dataset_management_request, [activity_id])].
Proof.
  rewrite operation_handler_shape. intros o Hres.
  remember o as o' eqn:Ho. subst o. walk_request Ho.
  all: subst o'; simpl in Hres; try discriminate.
  all: repeat match goal with
       | H : getitem _ _ = Ok _ |- _ => apply getitem_ok in H
       end.
  all: repeat match goal with H : Ok _ = Ok _ |- _ => injection H as <- end.
  all: do 9 eexists; split_and!; try eassumption; reflexivity.
Qed.

(** C9: every activity-create call of a request handler, and of the helper
    that makes it, is given a context whose "ignore_auth" is True, whatever
    the host, its state and the caller are; a request that returns has made
    such a call. *)
Theorem activity_created_ignoring_auth (op : Operation)
    (context data_dict : pydict) (dataset_id : pyval)
    (activity_type : DatasetManagementActivityType) (w : World) :
  let ignoring (called : option pydict * pydict * Result pyval) :=
    ∃ c : pydict, called.1.1 = Some c ∧ c !! "ignore_auth" = Some (PBool true) in
  let o := run h (operation_handler value op context data_dict) w in
  Forall ignoring (action_calls "activity_create" (trace o)) ∧
  Forall ignoring
    (action_calls "activity_create"
       (trace (run h (_create_dataset_management_activity
                        value dataset_id activity_type) w))) ∧
  (result o = Ok () →
   length (action_calls "activity_create" (trace o)) = 1%nat).
Proof.
  rewrite operation_handler_shape. intros ignoring o. split_and!.
  - remember o as o' eqn:Ho. subst o. walk_request Ho.
    all: subst o'; simpl; repeat constructor.
    all: by eexists.
  - remember (run h _ w) as o' eqn:Ho in |- *.
    unfold _create_dataset_management_activity in Ho. walk_in Ho.
    all: subst o'; simpl; repeat constructor.
    all: by eexists.
  - intros Hres. remember o as o' eqn:Ho. subst o. walk_request Ho.
    all: subst o'; simpl in Hres; try discriminate.
    all: reflexivity.
Qed.

End Effects.

Section Identities.
Context {World : Type} (h : Host World).
Variable value : DatasetManagementActivityType → pyval.

(** C10, as the code has it: the user id recorded on the activity is the
    id of the global request user, toolkit.g.userobj; the user whose
    notification preference is patched is context["user"]; the follow call
    is given the dataset id and nothing else, neither a user nor a context,
    so the follower is whoever the host takes the caller to be.  Nothing
    relates the identities: each call is made as stated whatever the other
    identity is. *)
Theorem request_identities (op : Operation)
    (context data_dict : pydict) (w : World) :
  let o := run h (operation_handler value op context data_dict) w in
  Forall (λ called : option pydict * pydict * Result pyval,
            ∃ u, userobj_reads (trace o) = [Ok (Some u)] ∧
                 called.1.2 !! "user_id" = Some (PStr (user_id u)))
         (action_calls "activity_create" (trace o)) ∧
  Forall (λ called : option pydict * pydict * Result pyval,
            ∃ user, context !! "user" = Some user ∧
                    called.1 = (None, notification_data user))
         (action_calls "emc_user_patch" (trace o)) ∧
  Forall (λ called : option pydict * pydict * Result pyval,
            ∃ pkg_id, data_dict !! "pkg_id" = Some pkg_id ∧
                      called.1 = (None, {[ "id" := pkg_id ]}))
         (action_calls "follow_dataset" (trace o)) ∧
  (result o = Ok () →
   length (action_calls "activity_create" (trace o)) = 1%nat ∧
   length (action_calls "emc_user_patch" (trace o)) = 1%nat ∧
   length (action_calls "follow_dataset" (trace o)) = 1%nat).
Proof.
  rewrite operation_handler_shape. intros o.
  remember o as o' eqn:Ho. subst o. walk_request Ho.
  all: subst o'; simpl.
  all: repeat match goal with
       | H : getitem _ _ = Ok _ |- _ => apply getitem_ok in H
       end.
  all: repeat match goal with H : Ok _ = Ok _ |- _ => injection H as <- end.
  all: split_and!; try done; repeat constructor.
  all: try (by eexists).
  all: try (intros [=]).
Qed.

(** X19: every exception a host call raises in a request is the outcome
    of the request, except a ValidationError raised by the follow call:
    that one is swallowed whatever it reports (a duplicate follow
    included), the helper returns, and the request goes on to enqueue the
    job.  So a request in which the follow call raises ValidationError,
    the other calls returning, returns with one activity created and one
    job enqueued. *)
Theorem validation_error_swallowed_at_follow (op : Operation)
    (context data_dict : pydict) (w : World) :
  let o := run h (operation_handler value op context data_dict) w in
  (∀ step x, (step, x) ∈ raised_by_calls (trace o) →
     result o = Raised x ∨
     (step = Some FollowDataset ∧ is_ValidationError x = true)) ∧
  (∀ (user dataset_id patched : pyval) (error_dict : pydict)
     (w0 w1 w2 : World),
     observe h (Registered "emc_user_patch") w0 = true →
     handle h (CallAction "emc_user_patch" None (notification_data user)) w0
       = (Ok patched, w1) →
     observe h (Registered "follow_dataset") w1 = true →
     handle h (CallAction "follow_dataset" None {[ "id" := dataset_id ]}) w1
       = (Raised (ValidationError error_dict), w2) →
     result (run h (_ensure_user_is_notifiable user dataset_id) w0) = Ok () ∧
     world (run h (_ensure_user_is_notifiable user dataset_id) w0) = w2) ∧
  (∀ (pkg_id activity activity_id user : pyval) (error_dict : pydict)
     (w1 w3 : World),
     handle h (CheckAccess (operation_check op) context (Some data_dict)) w
       = (Ok (), w1) →
     data_dict !! "pkg_id" = Some pkg_id →
     context !! "user" = Some user →
     let created := run h (_create_dataset_management_activity
                             value pkg_id (operation_type op)) w1 in
     let notified := run h (_ensure_user_is_notifiable user pkg_id)
                         (world created) in
     result created = Ok activity →
     subscript activity "id" = Ok activity_id →
     (Some FollowDataset, ValidationError error_dict)
       ∈ raised_by_calls (trace notified) →
     handle h (EnqueueJob notify_org_admins_of_dataset_management_request
                 [activity_id]) (world notified) = (Ok (), w3) →
     result o = Ok () ∧ world o = w3 ∧
     length (action_calls "activity_create" (trace o)) = 1%nat ∧
     enqueued_jobs (trace o)
       = [(notify_org_admins_of_dataset_management_request, [activity_id])]).
Proof.
  rewrite operation_handler_shape. intros o. split_and!.
  - remember o as o' eqn:Ho. subst o. walk_request Ho.
    all: subst o'; simpl; intros step x Hin.
    all: repeat (apply elem_of_cons in Hin as [[= -> ->]|Hin]).
    all: try (by apply elem_of_nil in Hin).
    all: try (by left).
    all: by right.
  - intros user dataset_id patched error_dict w0 w1 w2 Hreg Hpatch Hreg' Hfollow.
    unfold _ensure_user_is_notifiable, notification_data in *. cbn.
    rewrite Hreg. cbn. rewrite Hpatch. cbn. rewrite Hreg'. cbn.
    by rewrite Hfollow.
  - intros pkg_id activity activity_id user error_dict w1 w3
      Hcheck Hpkg Huser created notified Hcreated Hid Hfollow Henqueue.
    assert (result notified = Ok ()) as Hnotified
      by by eapply ensure_notifiable_swallows.
    pose proof (create_activity_steps h value pkg_id (operation_type op) w1)
      as (_ & Hquiet & Hstep).
    pose proof (ensure_notifiable_steps h user pkg_id (world created))
      as (_ & Hquiet' & Hnone & _).
    fold created in Hquiet, Hstep. fold notified in Hquiet', Hnone.
    destruct (Hstep _ Hcreated) as [_ Hone].
    subst o. rewrite (request_run_created h value _ _ _ _ _ _ _ Hcheck Hpkg).
    fold created. rewrite Hcreated.
    rewrite (request_run_notified h _ _ _ _ _ _ Huser Hpkg).
    fold notified. rewrite Hnotified. clearbody notified created.
    cbn. rewrite Hid. cbn. rewrite Henqueue. cbn.
    unfold action_calls, enqueued_jobs in *.
    rewrite !omap_app, Hnone, Hquiet, Hquiet', length_app, Hone.
    by cbn.
Qed.

End Identities.

(** ** The two request handlers have one shape *)

Section Shape.
Variable value : DatasetManagementActivityType → pyval.

(** Programs of one shape, run against a host that answers alike calls
    alike, end alike and make alike calls. *)
Lemma same_shape_run {World A} (h : Host World) (check1 check2 : string)
    (type1 type2 : pyval) (p1 p2 : Prog A) :
  (∀ R (c1 c2 : hostE R) (w : World),
     same_call check1 check2 type1 type2 R c1 c2 →
     handle h c1 w = handle h c2 w) →
  same_shape check1 check2 type1 type2 p1 p2 →
  ∀ w : World,
    result (run h p1 w) = result (run h p2 w) ∧
    world (run h p1 w) = world (run h p2 w) ∧
    Forall2 (same_entry check1 check2 type1 type2)
            (trace (run h p1 w)) (trace (run h p2 w)).
Proof.
  intros Halike Hshape.
  induction Hshape as [a|e|R c1 c2 k1 k2 Hcall _ IH|R q k1 k2 _ IH]; intros w.
  - by cbn.
  - by cbn.
  - cbn. rewrite <- (Halike _ _ _ w Hcall).
    destruct (IH (handle h c1 w).1 (handle h c1 w).2) as (? & ? & ?).
    split_and!; [done|done|]. constructor; [by constructor | done].
  - cbn. destruct (IH (observe h q w) w) as (? & ? & ?).
    split_and!; [done|done|]. constructor; [by constructor | done].
Qed.

Ltac shape_step :=
  cbn;
  lazymatch goal with
  | |- same_shape _ _ _ _ (Ret _) (Ret _) => constructor
  | |- same_shape _ _ _ _ (mret _) (mret _) => apply same_shape_ret
  | |- same_shape _ _ _ _ (Throw _) (Throw _) => constructor
  | |- same_shape _ _ _ _ (Vis _ _) (Vis _ _) =>
      apply same_shape_vis; [| intros [?|?]]
  | |- same_shape _ _ _ _ (Read _ _) (Read _ _) =>
      apply same_shape_read; intros [|]
  | |- context [match ?r with Some _ => _ | None => _ end] => destruct r
  | |- context [lift ?r] => destruct r
  | |- context [if is_ValidationError ?e then _ else _] =>
      destruct (is_ValidationError e)
  end.

(** C7: request_dataset_maintenance and request_dataset_publication are
    one program but for the name of the authorization check and the value
    recorded as the activity type: at every point, whatever the host has
    answered so far, they make the same host call with the same arguments,
    or end alike.  Run against a host that does not tell the two names and
    the two values apart, they end with the same result in the same state,
    and their calls are the same one by one but for the name and the
    value. *)
Theorem maintenance_and_publication_alike (context data_dict : pydict) :
  same_shape "emc_request_dataset_maintenance"
             "emc_request_dataset_publication"
             (value REQUEST_MAINTENANCE) (value REQUEST_PUBLICATION)
             (request_dataset_maintenance value context data_dict)
             (request_dataset_publication value context data_dict) ∧
  ∀ (World : Type) (h : Host World) (w : World),
    (∀ R (c1 c2 : hostE R) (w' : World),
       same_call "emc_request_dataset_maintenance"
                 "emc_request_dataset_publication"
                 (value REQUEST_MAINTENANCE) (value REQUEST_PUBLICATION)
                 R c1 c2 →
       handle h c1 w' = handle h c2 w') →
    let maintenance :=
      run h (request_dataset_maintenance value context data_dict) w in
    let publication :=
      run h (request_dataset_publication value context data_dict) w in
    result maintenance = result publication ∧
    world maintenance = world publication ∧
    Forall2 (same_entry "emc_request_dataset_maintenance"
                        "emc_request_dataset_publication"
                        (value REQUEST_MAINTENANCE)
                        (value REQUEST_PUBLICATION))
            (trace maintenance) (trace publication).
Proof.
  assert (same_shape "emc_request_dataset_maintenance"
                     "emc_request_dataset_publication"
                     (value REQUEST_MAINTENANCE) (value REQUEST_PUBLICATION)
                     (request_dataset_maintenance value context data_dict)
                     (request_dataset_publication value context data_dict))
    as Halike.
  { unfold request_dataset_maintenance, request_dataset_publication,
      _create_dataset_management_activity, _ensure_user_is_notifiable.
    repeat shape_step.
    all: try apply same_call_refl.
    - apply same_call_check.
    - apply same_call_activity.
      + by rewrite 2!lookup_insert_ne, lookup_insert_eq.
      + by rewrite 2!lookup_insert_ne, lookup_insert_eq.
      + by rewrite 2!delete_insert_ne, !delete_insert_eq. }
  split; [exact Halike|].
  intros World h w Hhost maintenance publication.
  by apply (same_shape_run h _ _ _ _ _ _ Hhost Halike).
Qed.

End Shape.
(** ** The featured-dataset lister *)

(** C4: on a catalogue whose extras are stored as key and value rows, the
    way the platform stores them, the datasets "rivers" and "towns" are
    featured, active and public; an authorized call of
    list_featured_datasets, with or without options, returns no name: it
    raises AttributeError for "featured" at the extras table, which has no
    column of that name, and runs no query. *)
Theorem featured_lister_on_key_value_extras :
  featured_datasets Cases.packages Cases.extras false
    = [ {[ "name" := PStr "rivers" ]}; {[ "name" := PStr "towns" ]} ] ∧
  ∀ options : option pydict,
    let o := run Demo.host
                 (list_featured_datasets Cases.key_value_context options)
                 Cases.catalogue in
    result o = Raised (AttributeError "featured") ∧
    world o = Cases.catalogue ∧
    trace o = [Called (CheckAccess "emc_authorize_list_featured_datasets"
                         Cases.key_value_context options) (Ok ())] ∧
    executed_queries (trace o) = [].
Proof.
  split; [vm_compute; reflexivity|].
  intros options o. subst o. by split_and!.
Qed.

(** * The handlers on the small host *)

(** The schema of the small host, patched: each list loses the named
    validator, "object_id" gains package_id_exists, and the activity for
    the dataset "p1" is created with that schema. *)
Lemma activity_schema_patch_witness :
  let types := [Demo.not_missing; Demo.not_empty; Demo.unicode_safe;
                Demo.activity_type_exists] in
  let objects := [Demo.not_missing; Demo.not_empty; Demo.unicode_safe;
                  Demo.object_id_validator] in
  let patched := patched_schema Demo.default_schema types objects
                                Demo.package_id_exists in
  let data := activity_data (PStr "u-1") (PStr "p1")
                            (Demo.value REQUEST_MAINTENANCE)
                            (PDict Demo.rivers) in
  action_calls "activity_create"
    (trace (run Demo.host
                (_create_dataset_management_activity
                   Demo.value (PStr "p1") REQUEST_MAINTENANCE)
                Demo.initial))
    = [(Some (activity_context patched), data,
        Ok (PDict (<["id" := PInt 0]> data)))] ∧
  patched !! "activity_type"
    = Some [Demo.not_missing; Demo.not_empty; Demo.unicode_safe] ∧
  patched !! "object_id"
    = Some [Demo.not_missing; Demo.not_empty; Demo.unicode_safe;
            Demo.package_id_exists].
Proof.
  intros types objects patched data.
  pose proof (activity_schema_patch Demo.host Demo.value (PStr "p1")
                REQUEST_MAINTENANCE Demo.default_schema types objects
                Demo.package_id_exists Demo.initial Demo.initial Demo.initial
                eq_refl eq_refl eq_refl eq_refl)
    as (_ & _ & Hcall & Htypes & Hobjects & _).
  destruct (Hcall (PDict Demo.rivers) Demo.alice Demo.initial Demo.initial
              eq_refl eq_refl eq_refl eq_refl) as (Hcalls & _).
  split; [|split; [exact Htypes | exact Hobjects]].
  etrans; [exact Hcalls|]. vm_compute. reflexivity.
Defined.

(** A request that returns takes the four steps; one for a dataset that
    does not exist stops at the creation of the activity, one for a user
    that does not exist stops at the patch, and neither enqueues a job. *)
Lemma request_steps_in_order_witness :
  let request (user dataset : string) :=
    run Demo.host
        (operation_handler Demo.value Maintenance
           {[ "user" := PStr user ]} {[ "pkg_id" := PStr dataset ]})
        Demo.initial in
  steps (trace (request "alice" "p1"))
    = [CreateActivity; PatchUser; FollowDataset; EnqueueNotification] ∧
  (result (request "alice" "nowhere") = Raised (NotFound "Dataset not found") ∧
   enqueued_jobs (trace (request "alice" "nowhere")) = []) ∧
  (result (request "mallory" "p1") = Raised (NotFound "User not found") ∧
   enqueued_jobs (trace (request "mallory" "p1")) = []).
Proof.
  intros request.
  pose proof (request_steps_in_order Demo.host Demo.value Maintenance
                {[ "user" := PStr "alice" ]} {[ "pkg_id" := PStr "p1" ]}
                Demo.initial) as (_ & Hall & _).
  pose proof (request_steps_in_order Demo.host Demo.value Maintenance
                {[ "user" := PStr "alice" ]}
                {[ "pkg_id" := PStr "nowhere" ]}
                Demo.initial) as (_ & _ & Hnowhere).
  pose proof (request_steps_in_order Demo.host Demo.value Maintenance
                {[ "user" := PStr "mallory" ]} {[ "pkg_id" := PStr "p1" ]}
                Demo.initial) as (_ & _ & Hmallory).
  destruct (Hnowhere Demo.initial (PStr "nowhere") eq_refl eq_refl)
    as [Hcreate _].
  destruct (Hcreate (NotFound "Dataset not found") eq_refl)
    as (Hres & _ & Hjobs).
  destruct (Hmallory Demo.initial (PStr "p1") eq_refl eq_refl)
    as [_ Hnotify].
  destruct (Hnotify
              (PDict (<["id" := PInt 0]>
                        (activity_data (PStr "u-1") (PStr "p1")
                           (Demo.value REQUEST_MAINTENANCE)
                           (PDict Demo.rivers))))
              (PStr "mallory") (NotFound "User not found")
              eq_refl eq_refl eq_refl)
    as (Hres' & _ & Hjobs').
  split; [exact (Hall eq_refl) |].
  split; [split; [exact Hres | exact Hjobs] |].
  split; [exact Hres' | exact Hjobs'].
Defined.

(** A request for a public dataset by a logged-in user: one activity for
    it, of the operation's type and with the dataset as package_show gave
    it, and one job, for the activity's id. *)
Lemma successful_request_effects_witness :
  let o := run Demo.host
               (operation_handler Demo.value Publication Demo.context
                  {[ "pkg_id" := PStr "p1" ]})
               Demo.initial in
  ∃ (pkg_id user dataset activity activity_id patched : pyval)
    (u : User) (schema : Schema) (followed : Result pyval),
    ({[ "pkg_id" := PStr "p1" ]} : pydict) !! "pkg_id" = Some pkg_id ∧
    Demo.context !! "user" = Some user ∧
    action_calls "package_show" (trace o)
      = [(None, {[ "id" := pkg_id ]}, Ok dataset)] ∧
    action_calls "activity_create" (trace o)
      = [(Some (activity_context schema),
          activity_data (PStr (user_id u)) pkg_id
                        (Demo.value REQUEST_PUBLICATION) dataset,
          Ok activity)] ∧
    subscript activity "id" = Ok activity_id ∧
    action_calls "emc_user_patch" (trace o)
      = [(None, notification_data user, Ok patched)] ∧
    action_calls "follow_dataset" (trace o)
      = [(None, {[ "id" := pkg_id ]}, followed)] ∧
    enqueued_jobs (trace o)
      = [(notify_org_admins_of_dataset_management_request, [activity_id])].
Proof.
  exact (successful_request_effects Demo.host Demo.value Publication
           Demo.context {[ "pkg_id" := PStr "p1" ]} Demo.initial eq_refl).
Defined.

(** That request has made one activity-create call. *)
Lemma activity_created_ignoring_auth_witness :
  length (action_calls "activity_create"
            (trace (run Demo.host
                        (operation_handler Demo.value Maintenance Demo.context
                           {[ "pkg_id" := PStr "p1" ]})
                        Demo.initial))) = 1%nat.
Proof.
  pose proof (activity_created_ignoring_auth Demo.host Demo.value Maintenance
                Demo.context {[ "pkg_id" := PStr "p1" ]} (PStr "p1")
                REQUEST_MAINTENANCE Demo.initial) as (_ & _ & Hone).
  exact (Hone eq_refl).
Defined.

(** The two handlers against the indifferent host. *)
Lemma maintenance_and_publication_alike_witness :
  let data_dict : pydict := {[ "pkg_id" := PStr "p1" ]} in
  let maintenance :=
    run Demo.stub
        (request_dataset_maintenance Demo.value Demo.context data_dict) () in
  let publication :=
    run Demo.stub
        (request_dataset_publication Demo.value Demo.context data_dict) () in
  result maintenance = Ok () ∧
  result maintenance = result publication ∧
  world maintenance = world publication ∧
  Forall2 (same_entry "emc_request_dataset_maintenance"
                      "emc_request_dataset_publication"
                      (Demo.value REQUEST_MAINTENANCE)
                      (Demo.value REQUEST_PUBLICATION))
          (trace maintenance) (trace publication).
Proof.
  intros data_dict maintenance publication.
  split; [reflexivity|].
  pose proof (maintenance_and_publication_alike Demo.value Demo.context
                data_dict) as [_ Hruns].
  apply (Hruns unit Demo.stub ()).
  intros R c1 c2 w' Hsame. by destruct Hsame.
Defined.

(** A second request for the same dataset by the same user: the follow
    call reports the existing follow as a ValidationError, the request
    returns all the same, and there are now two activities and two jobs. *)
Lemma validation_error_swallowed_at_follow_witness :
  let data_dict : pydict := {[ "pkg_id" := PStr "p1" ]} in
  let first :=
    run Demo.host
        (operation_handler Demo.value Maintenance Demo.context data_dict)
        Demo.initial in
  let second :=
    run Demo.host
        (operation_handler Demo.value Maintenance Demo.context data_dict)
        (world first) in
  result first = Ok () ∧
  action_calls "follow_dataset" (trace second)
    = [(None, {[ "id" := PStr "p1" ]}, Raised Demo.already_following)] ∧
  result second = Ok () ∧
  length (action_calls "activity_create" (trace second)) = 1%nat ∧
  enqueued_jobs (trace second)
    = [(notify_org_admins_of_dataset_management_request, [PInt 1])] ∧
  length (Demo.activities (world second)) = 2%nat ∧
  length (Demo.queue (world second)) = 2%nat.
Proof.
  intros data_dict first second.
  pose proof (validation_error_swallowed_at_follow Demo.host Demo.value
                Maintenance Demo.context data_dict (world first))
    as (_ & _ & Hsecond).
  destruct (Hsecond (PStr "p1")
              (PDict (<["id" := PInt 1]>
                        (activity_data (PStr "u-1") (PStr "p1")
                           (Demo.value REQUEST_MAINTENANCE)
                           (PDict Demo.rivers))))
              (PInt 1) (PStr "alice")
              {[ "message" := PStr "You are already following it" ]}
              (world first) (world second)
              eq_refl eq_refl eq_refl eq_refl eq_refl)
    as (Hres & _ & Hone & Hjobs).
  - vm_compute. apply list_elem_of_here.
  - vm_compute. reflexivity.
  - split; [vm_compute; reflexivity|]. split; [vm_compute; reflexivity|].
    split; [exact Hres|]. split; [exact Hone|]. split; [exact Hjobs|].
    split; vm_compute; reflexivity.
Defined.


(** A request made in bob's name while alice is the request user: the
    activity records alice's id, bob's preference is patched, the follow
    call is given the dataset id only, and it is alice who follows. *)
Lemma request_identities_witness :
  let o := run Demo.host
               (operation_handler Demo.value Maintenance
                  {[ "user" := PStr "bob" ]} {[ "pkg_id" := PStr "p1" ]})
               Demo.initial in
  (length (action_calls "activity_create" (trace o)) = 1%nat ∧
   length (action_calls "emc_user_patch" (trace o)) = 1%nat ∧
   length (action_calls "follow_dataset" (trace o)) = 1%nat) ∧
  (λ called : option pydict * pydict * Result pyval, called.1)
    <$> action_calls "follow_dataset" (trace o)
    = [(None, {[ "id" := PStr "p1" ]})] ∧
  Demo.notified (world o) = [PStr "bob"] ∧
  Demo.followers (world o) = [("alice", "p1")].
Proof.
  intros o.
  pose proof (request_identities Demo.host Demo.value Maintenance
                {[ "user" := PStr "bob" ]} {[ "pkg_id" := PStr "p1" ]}
                Demo.initial) as (_ & _ & _ & Hones).
  split; [exact (Hones eq_refl)|].
  split; [reflexivity|]. split; reflexivity.
Defined.

(** C10 as stated fails: on the small host, the user who follows the
    dataset after a request made in bob's name is alice, the request
    user. *)
Lemma subscriber_is_not_context_user :
  ¬ subscriber_is_context_user.
Proof.
  intros Hclaim.
  specialize (Hclaim Demo.initial {[ "user" := PStr "bob" ]}
                {[ "pkg_id" := PStr "p1" ]} "bob" "p1"
                eq_refl eq_refl eq_refl).
  vm_compute in Hclaim.
  apply elem_of_cons in Hclaim as [[=]|Hclaim].
  by apply elem_of_nil in Hclaim.
Qed.

(** * Further properties of the handlers *)

(** ** Failures before anything is done *)

Lemma getitem_absent {V} (d : gmap string V) (key : string) :
  d !! key = None → getitem d key = Raised (KeyError key).
Proof. intros Hnone. unfold getitem. by rewrite Hnone. Qed.

Section EarlyFailures.
Context {World : Type} (h : Host World).
Variable value : DatasetManagementActivityType → pyval.

(** X1: whatever exception the authorization check raises, NotAuthorized
    or not, the action raises it, the check is the only host call of the
    run and the host is left as the check left it. *)
Theorem failed_check_stops_action (context data_dict : pydict)
    (options : option pydict) (e : exn) (w w' : World) :
  (handle h (CheckAccess "emc_authorize_list_featured_datasets"
               context options) w = (Raised e, w') →
   run h (list_featured_datasets context options) w
   = mkOutcome (Raised e) w'
       [Called (CheckAccess "emc_authorize_list_featured_datasets"
                  context options) (Raised e)]) ∧
  (∀ op : Operation,
     handle h (CheckAccess (operation_check op) context (Some data_dict)) w
       = (Raised e, w') →
     run h (operation_handler value op context data_dict) w
     = mkOutcome (Raised e) w'
         [Called (CheckAccess (operation_check op) context (Some data_dict))
                 (Raised e)]).
Proof.
  split.
  - intros Hcheck. unfold list_featured_datasets. cbn. by rewrite Hcheck.
  - intros op Hcheck. rewrite operation_handler_shape.
    unfold request_dataset_management. cbn. by rewrite Hcheck.
Qed.

(** X2: every run of a protected action starts with its authorization
    check and makes no other; show_version makes none. *)
Theorem one_check_before_anything (op : Operation)
    (context data_dict : pydict) (options absent : option pydict)
    (w : World) :
  let requested := run h (operation_handler value op context data_dict) w in
  let listed := run h (list_featured_datasets context options) w in
  (∃ r rest,
     trace requested
     = Called (CheckAccess (operation_check op) context (Some data_dict)) r
       :: rest) ∧
  access_checks (trace requested) = [operation_check op] ∧
  (∃ r rest,
     trace listed
     = Called (CheckAccess "emc_authorize_list_featured_datasets"
                 context options) r :: rest) ∧
  access_checks (trace listed) = ["emc_authorize_list_featured_datasets"] ∧
  access_checks (trace (run h (show_version absent options) w)) = [].
Proof.
  rewrite operation_handler_shape. intros requested listed. split_and!.
  - subst requested. unfold request_dataset_management. cbn. eauto.
  - remember requested as o eqn:Ho. subst requested. walk_request Ho.
    all: by subst o.
  - subst listed. unfold list_featured_datasets. cbn. eauto.
  - remember listed as o eqn:Ho. subst listed.
    unfold list_featured_datasets in Ho. walk_in Ho.
    all: by subst o.
  - clear requested listed.
    remember (run h (show_version absent options) w) as o eqn:Ho.
    unfold show_version in Ho. walk_in Ho.
    all: by subst o.
Qed.

(** X3: an authorized request whose data dictionary has no "pkg_id" raises
    KeyError for that key straight after the check: no action is looked up
    or called. *)
Theorem request_without_pkg_id (op : Operation)
    (context data_dict : pydict) (w w1 : World) :
  handle h (CheckAccess (operation_check op) context (Some data_dict)) w
    = (Ok (), w1) →
  data_dict !! "pkg_id" = None →
  run h (operation_handler value op context data_dict) w
  = mkOutcome (Raised (KeyError "pkg_id")) w1
      [Called (CheckAccess (operation_check op) context (Some data_dict))
              (Ok ())].
Proof.
  intros Hcheck Hpkg. rewrite operation_handler_shape.
  unfold request_dataset_management. cbn. rewrite Hcheck. cbn.
  by rewrite (getitem_absent _ _ Hpkg).
Qed.

(** X5: when nobody is logged in (toolkit.g.userobj is None) the request
    raises AttributeError after the dataset has been read and before any
    activity is created; none of the four steps is taken. *)
Theorem anonymous_request_creates_nothing (op : Operation)
    (context data_dict : pydict) (w : World) :
  let o := run h (operation_handler value op context data_dict) w in
  Ok None ∈ userobj_reads (trace o) →
  result o
    = Raised (AttributeError "'NoneType' object has no attribute 'id'") ∧
  steps (trace o) = [] ∧
  ∃ pkg_id dataset,
    data_dict !! "pkg_id" = Some pkg_id ∧
    action_calls "package_show" (trace o)
      = [(None, {[ "id" := pkg_id ]}, Ok dataset)].
Proof.
  rewrite operation_handler_shape. intros o.
  remember o as o' eqn:Ho. subst o. walk_request Ho.
  all: subst o'; simpl; intros Hin.
  all: repeat (apply elem_of_cons in Hin as [Hin|Hin]; [by simplify_eq|]).
  all: try (by apply elem_of_nil in Hin).
  all: repeat (apply elem_of_cons in Hin as [Hin|Hin]).
  all: try (by apply elem_of_nil in Hin).
  all: simplify_eq.
  all: repeat match goal with
       | H : getitem _ _ = Ok _ |- _ => apply getitem_ok in H
       end.
  all: split_and!; try done; eauto.
Qed.

End EarlyFailures.

(** ** Failures that leave effects behind *)

Section PartialEffects.
Context {World : Type} (h : Host World).
Variable value : DatasetManagementActivityType → pyval.

(** X6: when the value that activity_create returned has no "id" (it is
    not a dictionary, or has no such key), the request raises the error of
    that lookup after the activity was created, the user patched and the
    follow attempted; no job is enqueued. *)
Theorem activity_without_id_leaves_effects (op : Operation)
    (context data_dict : pydict) (pkg_id user activity : pyval) (e : exn)
    (w w1 : World) :
  handle h (CheckAccess (operation_check op) context (Some data_dict)) w
    = (Ok (), w1) →
  data_dict !! "pkg_id" = Some pkg_id →
  context !! "user" = Some user →
  let created := run h (_create_dataset_management_activity
                          value pkg_id (operation_type op)) w1 in
  let notified := run h (_ensure_user_is_notifiable user pkg_id)
                      (world created) in
  result created = Ok activity →
  result notified = Ok () →
  subscript activity "id" = Raised e →
  let o := run h (operation_handler value op context data_dict) w in
  result o = Raised e ∧
  world o = world notified ∧
  steps (trace o) = [CreateActivity; PatchUser; FollowDataset] ∧
  enqueued_jobs (trace o) = [].
Proof.
  intros Hcheck Hpkg Huser created notified Hcreated Hnotified Hid o.
  pose proof (create_activity_steps h value pkg_id (operation_type op) w1)
    as (_ & Hquiet & Hstep).
  pose proof (ensure_notifiable_steps h user pkg_id (world created))
    as (_ & Hquiet' & _ & Hsteps').
  fold created in Hquiet, Hstep. fold notified in Hquiet', Hsteps'.
  destruct (Hstep _ Hcreated) as [Hsteps _]. specialize (Hsteps' Hnotified).
  subst o. rewrite operation_handler_shape.
  rewrite (request_run_created h value _ _ _ _ _ _ _ Hcheck Hpkg).
  fold created. rewrite Hcreated.
  rewrite (request_run_notified h _ _ _ _ _ _ Huser Hpkg).
  fold notified. clearbody notified created. rewrite Hnotified, Hid. cbn.
  unfold steps, enqueued_jobs in *.
  rewrite !app_nil_r, !omap_app, Hsteps, Hsteps', Hquiet, Hquiet'.
  by split_and!.
Qed.

(** X7: when enqueue_job raises, the request raises that exception and
    stops there: by then the activity has been created and the user
    patched, the failed enqueue is the last call of the run, and the host
    is left as that call left it.  Nothing is undone. *)
Theorem failed_enqueue_leaves_effects (op : Operation)
    (context data_dict : pydict) (pkg_id user activity activity_id : pyval)
    (e : exn) (w w1 w3 : World) :
  handle h (CheckAccess (operation_check op) context (Some data_dict)) w
    = (Ok (), w1) →
  data_dict !! "pkg_id" = Some pkg_id →
  context !! "user" = Some user →
  let created := run h (_create_dataset_management_activity
                          value pkg_id (operation_type op)) w1 in
  let notified := run h (_ensure_user_is_notifiable user pkg_id)
                      (world created) in
  result created = Ok activity →
  result notified = Ok () →
  subscript activity "id" = Ok activity_id →
  handle h (EnqueueJob notify_org_admins_of_dataset_management_request
              [activity_id]) (world notified) = (Raised e, w3) →
  let o := run h (operation_handler value op context data_dict) w in
  result o = Raised e ∧
  world o = w3 ∧
  trace o
    = Called (CheckAccess (operation_check op) context (Some data_dict))
             (Ok ())
      :: trace created ++ trace notified
      ++ [Called (EnqueueJob notify_org_admins_of_dataset_management_request
                    [activity_id]) (Raised e)] ∧
  steps (trace o)
    = [CreateActivity; PatchUser; FollowDataset; EnqueueNotification] ∧
  (∃ (c : option pydict) (d : pydict),
     action_calls "activity_create" (trace o) = [(c, d, Ok activity)]) ∧
  (∃ patched : pyval,
     action_calls "emc_user_patch" (trace o)
       = [(None, notification_data user, Ok patched)]).
Proof.
  intros Hcheck Hpkg Huser created notified Hcreated Hnotified Hid Henqueue o.
  pose proof (create_activity_steps h value pkg_id (operation_type op) w1)
    as (_ & _ & Hstep).
  pose proof (ensure_notifiable_steps h user pkg_id (world created))
    as (_ & _ & Hnone & Hsteps').
  fold created in Hstep. fold notified in Hnone, Hsteps'.
  destruct (Hstep _ Hcreated) as [Hsteps _]. specialize (Hsteps' Hnotified).
  assert (∃ (c : option pydict) (d : pydict),
            action_calls "activity_create" (trace created)
              = [(c, d, Ok activity)]) as (c & d & Hcall).
  { clear -Hcreated. remember created as o' eqn:Ho. subst created.
    unfold _create_dataset_management_activity in Ho. walk_in Ho.
    all: subst o'; simpl in *; try discriminate Hcreated.
    injection Hcreated as <-. by do 2 eexists. }
  assert (action_calls "emc_user_patch" (trace created) = []) as Hquiet.
  { clear. remember created as o' eqn:Ho. subst created.
    unfold _create_dataset_management_activity in Ho. walk_in Ho.
    all: by subst o'. }
  assert (∃ patched : pyval,
            action_calls "emc_user_patch" (trace notified)
              = [(None, notification_data user, Ok patched)])
    as (patched & Hpatch).
  { revert Hnotified. subst notified. generalize (world created) as w2.
    clear. intros w2 Hnotified.
    remember (run h (_ensure_user_is_notifiable user pkg_id) w2) as o' eqn:Ho.
    unfold _ensure_user_is_notifiable in Ho. walk_in Ho.
    all: subst o'; simpl in *; try discriminate Hnotified.
    all: by eexists. }
  subst o. rewrite operation_handler_shape.
  rewrite (request_run_created h value _ _ _ _ _ _ _ Hcheck Hpkg).
  fold created. rewrite Hcreated.
  rewrite (request_run_notified h _ _ _ _ _ _ Huser Hpkg).
  fold notified. clearbody notified created. rewrite Hnotified, Hid. cbn.
  rewrite Henqueue. cbn.
  unfold steps, action_calls in *.
  rewrite !omap_app, Hsteps, Hsteps', Hcall, Hquiet, Hnone, Hpatch. cbn.
  split_and!; try done; by eauto.
Qed.

(** X8: a request looks the dataset up, creates an activity, patches the
    user, follows and enqueues at most once each, whatever the host does;
    it runs no query and reads no environment variable; and a job it
    enqueues carries the "id" of the activity that this very request
    created. *)
Theorem request_acts_at_most_once (op : Operation)
    (context data_dict : pydict) (w : World) :
  let o := run h (operation_handler value op context data_dict) w in
  (length (action_calls "package_show" (trace o)) ≤ 1)%nat ∧
  (length (action_calls "activity_create" (trace o)) ≤ 1)%nat ∧
  (length (action_calls "emc_user_patch" (trace o)) ≤ 1)%nat ∧
  (length (action_calls "follow_dataset" (trace o)) ≤ 1)%nat ∧
  (length (enqueued_jobs (trace o)) ≤ 1)%nat ∧
  executed_queries (trace o) = [] ∧
  environment_reads (trace o) = [] ∧
  (∀ job, job ∈ enqueued_jobs (trace o) →
     ∃ (c : option pydict) (d : pydict) (activity activity_id : pyval),
       action_calls "activity_create" (trace o) = [(c, d, Ok activity)] ∧
       subscript activity "id" = Ok activity_id ∧
       job = (notify_org_admins_of_dataset_management_request,
              [activity_id])).
Proof.
  rewrite operation_handler_shape. intros o.
  remember o as o' eqn:Ho. subst o. walk_request Ho.
  all: subst o'; simpl.
  all: split_and!; try done; try lia.
  all: intros job Hin.
  all: repeat (apply elem_of_cons in Hin as [->|Hin]).
  all: try (by apply elem_of_nil in Hin).
  all: by do 4 eexists.
Qed.

(** X9: the activity is created only for a dataset that package_show has
    returned and a user that toolkit.g.userobj has given: every
    activity-create call embeds what the one package_show call for that id
    gave and records the id of the user object read in this run; when
    package_show raises (the dataset does not exist, say) the helper raises
    that exception and no activity is created. *)
Theorem activity_created_for_shown_dataset (dataset_id : pyval)
    (activity_type : DatasetManagementActivityType) (w : World) :
  let o := run h (_create_dataset_management_activity
                    value dataset_id activity_type) w in
  (∀ called, called ∈ action_calls "activity_create" (trace o) →
     ∃ (dataset : pyval) (u : User),
       action_calls "package_show" (trace o)
         = [(None, {[ "id" := dataset_id ]}, Ok dataset)] ∧
       userobj_reads (trace o) = [Ok (Some u)] ∧
       called.1.2 = activity_data (PStr (user_id u)) dataset_id
                                  (value activity_type) dataset) ∧
  (∀ e, (λ called : option pydict * pydict * Result pyval, called.2)
          <$> action_calls "package_show" (trace o) = [Raised e] →
     result o = Raised e ∧
     action_calls "activity_create" (trace o) = []).
Proof.
  intros o. remember o as o' eqn:Ho. subst o.
  unfold _create_dataset_management_activity in Ho. walk_in Ho.
  all: subst o'; simpl; split.
  all: try (intros called Hin;
            repeat (apply elem_of_cons in Hin as [->|Hin]);
            try (by apply elem_of_nil in Hin);
            simplify_eq; by do 2 eexists).
  all: intros e' [=]; by subst.
Qed.

End PartialEffects.

(** ** Making the user notifiable *)

Section Notifiable.
Context {World : Type} (h : Host World).

(** X10: _ensure_user_is_notifiable returns exactly when emc_user_patch
    has returned and follow_dataset has returned or raised a
    ValidationError.  When the patch raises, the follow is not attempted;
    when the follow raises anything but a ValidationError, the helper
    raises it with the preference already patched. *)
Theorem ensure_notifiable_outcome (user dataset_id : pyval) (w : World) :
  let o := run h (_ensure_user_is_notifiable user dataset_id) w in
  (result o = Ok () ↔
   ∃ (patched : pyval) (followed : Result pyval),
     action_calls "emc_user_patch" (trace o)
       = [(None, notification_data user, Ok patched)] ∧
     action_calls "follow_dataset" (trace o)
       = [(None, {[ "id" := dataset_id ]}, followed)] ∧
     ∀ e, followed = Raised e → is_ValidationError e = true) ∧
  (∀ e, (Some PatchUser, e) ∈ raised_by_calls (trace o) →
     result o = Raised e ∧ action_calls "follow_dataset" (trace o) = []) ∧
  (∀ e, (Some FollowDataset, e) ∈ raised_by_calls (trace o) →
     is_ValidationError e = false →
     result o = Raised e ∧
     ∃ patched, action_calls "emc_user_patch" (trace o)
                  = [(None, notification_data user, Ok patched)]).
Proof.
  intros o. split_and!.
  - remember o as o' eqn:Ho. subst o.
    unfold _ensure_user_is_notifiable in Ho. walk_in Ho.
    all: subst o'; simpl; split.
    all: try (by intros [=]).
    all: try (intros _; do 2 eexists;
              split; [reflexivity|]; split; [reflexivity|];
              intros e' ?; by simplify_eq).
    all: intros (patched & followed & Hpatch & Hfollow & Hvalidation).
    all: try done.
    all: try discriminate Hpatch.
    all: try discriminate Hfollow.
    all: injection Hfollow as <-.
    all: specialize (Hvalidation _ eq_refl); congruence.
  - remember o as o' eqn:Ho. subst o.
    unfold _ensure_user_is_notifiable in Ho. walk_in Ho.
    all: subst o'; simpl; intros e Hin.
    all: repeat (apply elem_of_cons in Hin as [Hin|Hin]).
    all: try (by apply elem_of_nil in Hin).
    all: by simplify_eq.
  - remember o as o' eqn:Ho. subst o.
    unfold _ensure_user_is_notifiable in Ho. walk_in Ho.
    all: subst o'; simpl; intros e Hin Hother.
    all: repeat (apply elem_of_cons in Hin as [Hin|Hin]).
    all: try (by apply elem_of_nil in Hin).
    all: simplify_eq.
    all: try congruence.
    all: split; [done | by eexists].
Qed.

End Notifiable.

(** ** Removing a validator *)

Lemma remove_validator_missing (schema : Schema) (field name : string) :
  schema !! field = None →
  remove_validator schema field name = Raised (KeyError field).
Proof.
  intros Hfield. unfold remove_validator.
  by rewrite (getitem_absent _ _ Hfield).
Qed.

(** X11: removing a validator from a schema fails only for a field the
    schema does not have, with KeyError for that field; list.remove never
    fails, since it is given a validator the loop found in that list.  The
    schema keeps its fields, and only the one list changes. *)
Theorem remove_validator_outcome (schema : Schema) (field name : string) :
  remove_validator schema field name
  = match schema !! field with
    | Some validators => Ok (<[field := without name validators]> schema)
    | None => Raised (KeyError field)
    end ∧
  (∀ removed : Schema,
     remove_validator schema field name = Ok removed →
     dom removed = dom schema ∧
     ∀ other, other ≠ field → removed !! other = schema !! other).
Proof.
  assert (remove_validator schema field name
          = match schema !! field with
            | Some validators =>
                Ok (<[field := without name validators]> schema)
            | None => Raised (KeyError field)
            end) as Hout.
  { destruct (schema !! field) as [validators|] eqn:Hfield.
    - by apply remove_validator_present.
    - by apply remove_validator_missing. }
  split; [exact Hout|].
  intros removed. rewrite Hout.
  destruct (schema !! field) as [validators|] eqn:Hfield; [|done].
  intros [= <-]. split.
  - rewrite dom_insert_L. apply subseteq_union_1_L, singleton_subseteq_l.
    by apply elem_of_dom_2 in Hfield.
  - intros other Hother. by rewrite lookup_insert_ne.
Qed.

Lemma without_first (name : string) (before after : list Validator)
    (v : Validator) :
  v_name v = name →
  name ∉ v_name <$> before →
  without name (before ++ v :: after) = before ++ after.
Proof.
  intros Hv. induction before as [|x before IH]; cbn.
  - intros _. by rewrite decide_True.
  - rewrite not_elem_of_cons. intros [Hx Hbefore].
    rewrite decide_False by done. by rewrite IH.
Qed.

(** X12: of several validators with the name, only the first is removed:
    the validators before it and all those after it, later ones of the same
    name included, stay in their order. *)
Theorem remove_validator_takes_first (schema : Schema) (field name : string)
    (before after : list Validator) (v : Validator) :
  schema !! field = Some (before ++ v :: after) →
  v_name v = name →
  name ∉ v_name <$> before →
  remove_validator schema field name
  = Ok (<[field := before ++ after]> schema).
Proof.
  intros Hfield Hv Hbefore.
  rewrite (remove_validator_present _ _ _ _ Hfield).
  by rewrite without_first.
Qed.

(** ** The version reporter, when the lookup fails *)

Section VersionFailure.
Context {World : Type} (h : Host World).

(** X13: when pkg_resources cannot resolve the package's distribution,
    show_version raises what the lookup raised (IndexError for an empty
    result) without reading the environment; in no case does it call an
    action, enqueue a job, run a query or read any variable but GIT_COMMIT,
    and it reads that one whenever it returns. *)
Theorem show_version_without_distribution
    (context data_dict : option pydict) (w : World) :
  let o := run h (show_version context data_dict) w in
  (∀ e w', handle h (PkgRequire "ckanext-dalrrd-emc-dcpr") w = (Raised e, w') →
     o = mkOutcome (Raised e) w'
           [Called (PkgRequire "ckanext-dalrrd-emc-dcpr") (Raised e)]) ∧
  (∀ w', handle h (PkgRequire "ckanext-dalrrd-emc-dcpr") w = (Ok [], w') →
     o = mkOutcome (Raised (IndexError "list index out of range")) w'
           [Called (PkgRequire "ckanext-dalrrd-emc-dcpr") (Ok [])]) ∧
  (∀ name, action_calls name (trace o) = []) ∧
  enqueued_jobs (trace o) = [] ∧
  executed_queries (trace o) = [] ∧
  (∀ shown, result o = Ok shown → environment_reads (trace o) = ["GIT_COMMIT"]) ∧
  (∀ e, result o = Raised e → environment_reads (trace o) = []).
Proof.
  intros o. split_and!.
  - intros e w' Hreq. subst o. unfold show_version. cbn. by rewrite Hreq.
  - intros w' Hreq. subst o. unfold show_version. cbn. by rewrite Hreq.
  - intros name. remember o as o' eqn:Ho. subst o. unfold show_version in Ho.
    walk_in Ho; by subst o'.
  - remember o as o' eqn:Ho. subst o. unfold show_version in Ho.
    walk_in Ho; by subst o'.
  - remember o as o' eqn:Ho. subst o. unfold show_version in Ho.
    walk_in Ho; by subst o'.
  - remember o as o' eqn:Ho. subst o. unfold show_version in Ho.
    walk_in Ho; by subst o'.
  - remember o as o' eqn:Ho. subst o. unfold show_version in Ho.
    walk_in Ho; by subst o'.
Qed.

End VersionFailure.

(** ** The lister's failures and what it leaves alone *)

Section Lister.
Context {World : Type} (h : Host World).

(** X14: list_featured_datasets calls no action and enqueues nothing,
    whatever the host and the input are; it runs at most one query, only
    after the authorization check has returned, and exactly one when it
    returns. *)
Theorem lister_only_reads (context : pydict) (options : option pydict)
    (w : World) :
  let o := run h (list_featured_datasets context options) w in
  steps (trace o) = [] ∧
  (∀ name, action_calls name (trace o) = []) ∧
  enqueued_jobs (trace o) = [] ∧
  environment_reads (trace o) = [] ∧
  (length (executed_queries (trace o)) ≤ 1)%nat ∧
  (∀ q, q ∈ executed_queries (trace o) →
     ∃ rest,
       trace o
       = Called (CheckAccess "emc_authorize_list_featured_datasets"
                   context options) (Ok ()) :: rest) ∧
  (∀ rows, result o = Ok rows →
     length (executed_queries (trace o)) = 1%nat).
Proof.
  intros o. remember o as o' eqn:Ho. subst o.
  unfold list_featured_datasets in Ho. walk_in Ho.
  all: subst o'; simpl; split_and!; try done; try lia.
  all: intros q Hin.
  all: try (by apply elem_of_nil in Hin).
  all: destruct r; by eexists.
Qed.

(** X15: an authorized call whose context holds under "model" a value
    that is not a model (None, a string, a dictionary) raises
    AttributeError for package_table; the check is its only host call and
    no query is run. *)
Theorem lister_needs_model_tables (context : pydict)
    (options : option pydict) (v : pyval) (w w1 : World) :
  handle h (CheckAccess "emc_authorize_list_featured_datasets"
              context options) w = (Ok (), w1) →
  context !! "model" = Some v →
  (∀ m, v ≠ PModel m) →
  run h (list_featured_datasets context options) w
  = mkOutcome (Raised (AttributeError "package_table")) w1
      [Called (CheckAccess "emc_authorize_list_featured_datasets"
                 context options) (Ok ())].
Proof.
  intros Hcheck Hmodel Hother. unfold list_featured_datasets. cbn.
  rewrite Hcheck. cbn. rewrite (getitem_present _ _ _ Hmodel). cbn.
  destruct v; try done. by destruct (Hother m).
Qed.

(** X16: when the extras table has no column named "featured" (extras
    kept as key and value columns, say), every authorized call raises
    AttributeError for "featured" once the name column and the join have
    been built, and no query is run. *)
Theorem lister_without_featured_column (context : pydict)
    (options : option pydict) (m : Model) (joined : FromClause)
    (w w1 : World) :
  handle h (CheckAccess "emc_authorize_list_featured_datasets"
              context options) w = (Ok (), w1) →
  context !! "model" = Some (PModel m) →
  "name" ∈ t_columns (package_table m) →
  join (package_table m) (package_extra_table m) = Ok joined →
  "featured" ∉ t_columns (package_extra_table m) →
  let o := run h (list_featured_datasets context options) w in
  result o = Raised (AttributeError "featured") ∧
  world o = w1 ∧
  executed_queries (trace o) = [].
Proof.
  intros Hcheck Hmodel Hname Hjoin Hfeatured o. subst o.
  unfold list_featured_datasets. cbn. rewrite Hcheck. cbn.
  rewrite (getitem_present _ _ _ Hmodel). cbn.
  unfold column.
  rewrite (decide_True (P := "name" ∈ t_columns (package_table m))) by done.
  cbn. rewrite Hjoin. cbn.
  rewrite (decide_False (P := "featured" ∈ t_columns (package_extra_table m)))
    by done.
  by cbn.
Qed.

End Lister.

(** ** The schema patch, when a field is missing *)

Section SchemaFields.
Context {World : Type} (h : Host World).
Variable value : DatasetManagementActivityType → pyval.

(** X17: when the schema the host returns lacks the "activity_type" or the
    "object_id" field, the helper raises KeyError for the first one
    missing straight away: no validator is looked up, the dataset is not
    read and no activity is created. *)
Theorem schema_without_field_stops_creation (dataset_id : pyval)
    (activity_type : DatasetManagementActivityType) (schema : Schema)
    (w w1 : World) :
  handle h DefaultCreateActivitySchema w = (Ok schema, w1) →
  let o := run h (_create_dataset_management_activity
                    value dataset_id activity_type) w in
  (schema !! "activity_type" = None →
   o = mkOutcome (Raised (KeyError "activity_type")) w1
         [Called DefaultCreateActivitySchema (Ok schema)]) ∧
  (is_Some (schema !! "activity_type") → schema !! "object_id" = None →
   o = mkOutcome (Raised (KeyError "object_id")) w1
         [Called DefaultCreateActivitySchema (Ok schema)]).
Proof.
  intros Hdefault o. subst o. unfold _create_dataset_management_activity.
  cbn. rewrite Hdefault. cbn. split.
  - intros Htypes.
    by rewrite (remove_validator_missing _ _ _ Htypes).
  - intros [types Htypes] Hobjects.
    rewrite (remove_validator_present _ _ _ _ Htypes). cbn.
    rewrite remove_validator_missing; [done|].
    by rewrite lookup_insert_ne.
Qed.

End SchemaFields.

(** * The further properties on the small host *)

Lemma failed_check_stops_action_witness :
  run Demo.host (list_featured_datasets Demo.context None) Demo.locked
  = mkOutcome (Raised (NotAuthorized "emc_authorize_list_featured_datasets"))
      Demo.locked
      [Called (CheckAccess "emc_authorize_list_featured_datasets"
                 Demo.context None)
              (Raised (NotAuthorized
                         "emc_authorize_list_featured_datasets"))] ∧
  run Demo.host (operation_handler Demo.value Publication Demo.context ∅)
      Demo.locked
  = mkOutcome (Raised (NotAuthorized "emc_request_dataset_publication"))
      Demo.locked
      [Called (CheckAccess "emc_request_dataset_publication"
                 Demo.context (Some ∅))
              (Raised (NotAuthorized "emc_request_dataset_publication"))].
Proof.
  split.
  - apply (failed_check_stops_action Demo.host Demo.value Demo.context ∅
             None (NotAuthorized "emc_authorize_list_featured_datasets")
             Demo.locked Demo.locked).
    vm_compute. reflexivity.
  - apply (failed_check_stops_action Demo.host Demo.value Demo.context ∅
             None (NotAuthorized "emc_request_dataset_publication")
             Demo.locked Demo.locked).
    vm_compute. reflexivity.
Defined.

Lemma request_without_pkg_id_witness :
  run Demo.host (operation_handler Demo.value Maintenance Demo.context ∅)
      Demo.initial
  = mkOutcome (Raised (KeyError "pkg_id")) Demo.initial
      [Called (CheckAccess "emc_request_dataset_maintenance"
                 Demo.context (Some ∅)) (Ok ())].
Proof.
  apply (request_without_pkg_id Demo.host Demo.value Maintenance
           Demo.context ∅ Demo.initial Demo.initial).
  - vm_compute. reflexivity.
  - reflexivity.
Defined.

Lemma anonymous_request_creates_nothing_witness :
  let o := run Demo.host
               (operation_handler Demo.value Maintenance Demo.context
                  {[ "pkg_id" := PStr "p1" ]})
               Cases.anonymous in
  (result o
     = Raised (AttributeError "'NoneType' object has no attribute 'id'") ∧
   steps (trace o) = []) ∧
  Demo.activities (world o) = [].
Proof.
  intros o. split.
  - destruct (anonymous_request_creates_nothing Demo.host Demo.value
                Maintenance Demo.context {[ "pkg_id" := PStr "p1" ]}
                Cases.anonymous) as (Hres & Hsteps & _).
    + vm_compute. apply list_elem_of_here.
    + split; [exact Hres | exact Hsteps].
  - vm_compute. reflexivity.
Defined.

Lemma activity_without_id_leaves_effects_witness :
  let o := run Cases.mute
               (operation_handler Demo.value Maintenance Demo.context
                  {[ "pkg_id" := PStr "p1" ]})
               Demo.initial in
  (result o = Raised (TypeError "object is not subscriptable") ∧
   steps (trace o) = [CreateActivity; PatchUser; FollowDataset] ∧
   enqueued_jobs (trace o) = []) ∧
  Demo.notified (world o) = [PStr "alice"] ∧
  Demo.queue (world o) = [].
Proof.
  intros o. split.
  - destruct (activity_without_id_leaves_effects Cases.mute Demo.value
                Maintenance Demo.context {[ "pkg_id" := PStr "p1" ]}
                (PStr "p1") (PStr "alice") PNone
                (TypeError "object is not subscriptable")
                Demo.initial Demo.initial)
      as (Hres & _ & Hsteps & Hjobs).
    + vm_compute. reflexivity.
    + reflexivity.
    + reflexivity.
    + vm_compute. reflexivity.
    + vm_compute. reflexivity.
    + reflexivity.
    + split; [exact Hres|]. split; [exact Hsteps | exact Hjobs].
  - vm_compute. done.
Defined.

Lemma failed_enqueue_leaves_effects_witness :
  let o := run Cases.queue_down
               (operation_handler Demo.value Publication Demo.context
                  {[ "pkg_id" := PStr "p1" ]})
               Demo.initial in
  (result o = Raised (OtherError "ConnectionError" "queue down") ∧
   steps (trace o)
     = [CreateActivity; PatchUser; FollowDataset; EnqueueNotification] ∧
   last (trace o)
     = Some (Called (EnqueueJob
                       notify_org_admins_of_dataset_management_request
                       [PInt 0])
                    (Raised (OtherError "ConnectionError" "queue down")))) ∧
  length (Demo.activities (world o)) = 1%nat ∧
  Demo.notified (world o) = [PStr "alice"] ∧
  Demo.followers (world o) = [("alice", "p1")] ∧
  Demo.queue (world o) = [].
Proof.
  intros o. split.
  - destruct (failed_enqueue_leaves_effects Cases.queue_down Demo.value
                Publication Demo.context {[ "pkg_id" := PStr "p1" ]}
                (PStr "p1") (PStr "alice")
                (PDict (<["id" := PInt 0]>
                          (activity_data (PStr "u-1") (PStr "p1")
                             (Demo.value REQUEST_PUBLICATION)
                             (PDict Demo.rivers))))
                (PInt 0) (OtherError "ConnectionError" "queue down")
                Demo.initial Demo.initial
                (world (run Cases.queue_down
                            (_ensure_user_is_notifiable (PStr "alice")
                                                        (PStr "p1"))
                            (world (run Cases.queue_down
                                        (_create_dataset_management_activity
                                           Demo.value (PStr "p1")
                                           REQUEST_PUBLICATION)
                                        Demo.initial)))))
      as (Hres & _ & Htrace & Hsteps & _).
    + vm_compute. reflexivity.
    + reflexivity.
    + reflexivity.
    + vm_compute. reflexivity.
    + vm_compute. reflexivity.
    + reflexivity.
    + vm_compute. reflexivity.
    + split; [exact Hres|]. split; [exact Hsteps|].
      fold o in Htrace. rewrite Htrace.
      rewrite app_comm_cons, app_assoc. apply last_snoc.
  - vm_compute. done.
Defined.

Lemma request_acts_at_most_once_witness :
  let o := run Demo.host
               (operation_handler Demo.value Maintenance Demo.context
                  {[ "pkg_id" := PStr "p1" ]})
               Demo.initial in
  ∃ (c : option pydict) (d : pydict) (activity activity_id : pyval),
    action_calls "activity_create" (trace o) = [(c, d, Ok activity)] ∧
    subscript activity "id" = Ok activity_id ∧
    (notify_org_admins_of_dataset_management_request, [PInt 0])
      = (notify_org_admins_of_dataset_management_request, [activity_id]).
Proof.
  intros o.
  destruct (request_acts_at_most_once Demo.host Demo.value Maintenance
              Demo.context {[ "pkg_id" := PStr "p1" ]} Demo.initial)
    as (_ & _ & _ & _ & _ & _ & _ & Hjob).
  apply Hjob. vm_compute. apply list_elem_of_here.
Defined.

Lemma activity_created_for_shown_dataset_witness :
  (let o := run Demo.host
                (_create_dataset_management_activity
                   Demo.value (PStr "p1") REQUEST_PUBLICATION)
                Demo.initial in
   ∃ (dataset : pyval) (u : User),
     action_calls "package_show" (trace o)
       = [(None, {[ "id" := PStr "p1" ]}, Ok dataset)] ∧
     userobj_reads (trace o) = [Ok (Some u)] ∧
     activity_data (PStr "u-1") (PStr "p1")
                   (Demo.value REQUEST_PUBLICATION) (PDict Demo.rivers)
     = activity_data (PStr (user_id u)) (PStr "p1")
                     (Demo.value REQUEST_PUBLICATION) dataset) ∧
  (let o := run Demo.host
                (_create_dataset_management_activity
                   Demo.value (PStr "nowhere") REQUEST_PUBLICATION)
                Demo.initial in
   result o = Raised (NotFound "Dataset not found") ∧
   action_calls "activity_create" (trace o) = []).
Proof.
  split.
  - intros o.
    destruct (activity_created_for_shown_dataset Demo.host Demo.value
                (PStr "p1") REQUEST_PUBLICATION Demo.initial)
      as [Hcreated _].
    apply (Hcreated
             (Some (activity_context
                      (patched_schema Demo.default_schema
                         [Demo.not_missing; Demo.not_empty;
                          Demo.unicode_safe; Demo.activity_type_exists]
                         [Demo.not_missing; Demo.not_empty;
                          Demo.unicode_safe; Demo.object_id_validator]
                         Demo.package_id_exists)),
              activity_data (PStr "u-1") (PStr "p1")
                            (Demo.value REQUEST_PUBLICATION)
                            (PDict Demo.rivers),
              Ok (PDict (<["id" := PInt 0]>
                           (activity_data (PStr "u-1") (PStr "p1")
                              (Demo.value REQUEST_PUBLICATION)
                              (PDict Demo.rivers)))))).
    vm_compute. apply list_elem_of_here.
  - intros o.
    destruct (activity_created_for_shown_dataset Demo.host Demo.value
                (PStr "nowhere") REQUEST_PUBLICATION Demo.initial)
      as [_ Hshown].
    apply Hshown. vm_compute. reflexivity.
Defined.

Lemma ensure_notifiable_outcome_witness :
  (result (run Demo.host
               (_ensure_user_is_notifiable (PStr "alice") (PStr "p1"))
               Demo.initial) = Ok ()) ∧
  (let o := run Demo.host
                (_ensure_user_is_notifiable (PStr "mallory") (PStr "p1"))
                Demo.initial in
   result o = Raised (NotFound "User not found") ∧
   action_calls "follow_dataset" (trace o) = []) ∧
  (let o := run Demo.host
                (_ensure_user_is_notifiable (PStr "alice") (PStr "p1"))
                Cases.anonymous in
   result o = Raised (NotAuthorized "You must be logged in") ∧
   ∃ patched, action_calls "emc_user_patch" (trace o)
                = [(None, notification_data (PStr "alice"), Ok patched)]).
Proof.
  split; [|split].
  - destruct (ensure_notifiable_outcome Demo.host (PStr "alice") (PStr "p1")
                Demo.initial) as ([_ Hreturns] & _ & _).
    apply Hreturns.
    exists (PDict (notification_data (PStr "alice"))),
           (Ok (PDict {[ "id" := PStr "p1" ]})).
    split; [vm_compute; reflexivity|]. split; [vm_compute; reflexivity|].
    intros e [=].
  - intros o.
    destruct (ensure_notifiable_outcome Demo.host (PStr "mallory")
                (PStr "p1") Demo.initial) as (_ & Hpatch & _).
    apply Hpatch. vm_compute. apply list_elem_of_here.
  - intros o.
    destruct (ensure_notifiable_outcome Demo.host (PStr "alice") (PStr "p1")
                Cases.anonymous) as (_ & _ & Hfollow).
    apply Hfollow; [|reflexivity]. vm_compute. apply list_elem_of_here.
Defined.

Lemma remove_validator_outcome_witness :
  let removed : Schema :=
    <["activity_type" := [Demo.not_missing; Demo.not_empty;
                          Demo.unicode_safe]]> Demo.default_schema in
  remove_validator Demo.default_schema "activity_type" "activity_type_exists"
    = Ok removed ∧
  dom removed = dom Demo.default_schema ∧
  removed !! "object_id" = Demo.default_schema !! "object_id".
Proof.
  intros removed.
  destruct (remove_validator_outcome Demo.default_schema "activity_type"
              "activity_type_exists") as [Hout Hkeeps].
  destruct (Hkeeps removed Hout) as [Hdom Hother].
  split; [exact Hout|]. split; [exact Hdom|].
  by apply Hother.
Defined.

Lemma remove_validator_takes_first_witness :
  remove_validator {[ "activity_type" := Cases.twice ]}
                   "activity_type" "activity_type_exists"
  = Ok {[ "activity_type" := [Demo.not_missing; Demo.not_empty;
                              mkValidator "activity_type_exists" 50] ]}.
Proof.
  assert ("activity_type_exists" ∉ v_name <$> [Demo.not_missing]) as Hbefore.
  { intros Hin. apply list_elem_of_singleton in Hin. discriminate Hin. }
  exact (remove_validator_takes_first
           {[ "activity_type" := Cases.twice ]}
           "activity_type" "activity_type_exists"
           [Demo.not_missing]
           [Demo.not_empty; mkValidator "activity_type_exists" 50]
           Demo.activity_type_exists eq_refl eq_refl Hbefore).
Defined.

Lemma show_version_without_distribution_witness :
  run Demo.host (show_version None None) Cases.uninstalled
  = mkOutcome
      (Raised (OtherError "DistributionNotFound" "ckanext-dalrrd-emc-dcpr"))
      Cases.uninstalled
      [Called (PkgRequire "ckanext-dalrrd-emc-dcpr")
              (Raised (OtherError "DistributionNotFound"
                                  "ckanext-dalrrd-emc-dcpr"))].
Proof.
  destruct (show_version_without_distribution Demo.host None None
              Cases.uninstalled) as (Hraised & _).
  apply Hraised. vm_compute. reflexivity.
Defined.

Lemma lister_only_reads_witness :
  let o := run Demo.host (list_featured_datasets Demo.context None)
               Demo.initial in
  length (executed_queries (trace o)) = 1%nat ∧
  world o = Demo.initial.
Proof.
  intros o.
  destruct (lister_only_reads Demo.host Demo.context None Demo.initial)
    as (_ & _ & _ & _ & _ & _ & Hone).
  split.
  - apply (Hone [ {[ "name" := PStr "rivers" ]};
                  {[ "name" := PStr "towns" ]} ]).
    vm_compute. reflexivity.
  - vm_compute. reflexivity.
Defined.

Lemma lister_needs_model_tables_witness :
  run Demo.host
      (list_featured_datasets {[ "model" := PStr "model" ]} None)
      Demo.initial
  = mkOutcome (Raised (AttributeError "package_table")) Demo.initial
      [Called (CheckAccess "emc_authorize_list_featured_datasets"
                 {[ "model" := PStr "model" ]} None) (Ok ())].
Proof.
  apply (lister_needs_model_tables Demo.host {[ "model" := PStr "model" ]}
           None (PStr "model") Demo.initial Demo.initial).
  - vm_compute. reflexivity.
  - reflexivity.
  - discriminate.
Defined.

Lemma lister_without_featured_column_witness :
  let o := run Demo.host
               (list_featured_datasets
                  {[ "model" := PModel Cases.key_value_model ]} None)
               Demo.initial in
  result o = Raised (AttributeError "featured") ∧
  executed_queries (trace o) = [].
Proof.
  intros o.
  destruct (lister_without_featured_column Demo.host
              {[ "model" := PModel Cases.key_value_model ]} None
              Cases.key_value_model
              (FJoin Demo.package Cases.key_value_extra "id" "package_id")
              Demo.initial Demo.initial)
    as (Hres & _ & Hnone).
  - vm_compute. reflexivity.
  - reflexivity.
  - repeat constructor.
  - reflexivity.
  - intros Hin.
    repeat (apply elem_of_cons in Hin as [Hin|Hin]; [discriminate Hin|]).
    by apply elem_of_nil in Hin.
  - split; [exact Hres | exact Hnone].
Defined.

Lemma schema_without_field_stops_creation_witness :
  run Cases.bare
      (_create_dataset_management_activity
         Demo.value (PStr "p1") REQUEST_MAINTENANCE)
      Demo.initial
  = mkOutcome (Raised (KeyError "object_id")) Demo.initial
      [Called DefaultCreateActivitySchema (Ok Cases.bare_schema)].
Proof.
  destruct (schema_without_field_stops_creation Cases.bare Demo.value
              (PStr "p1") REQUEST_MAINTENANCE Cases.bare_schema
              Demo.initial Demo.initial) as [_ Hobject].
  - reflexivity.
  - apply Hobject; [by eexists | reflexivity].
Defined.
